(** * Calculator: the state machine of [src/client/Components/Calculator.tsx]

    The component keeps one [CalcState] record and replaces it on every key
    press.  The handlers are pure functions of the previous state, so they
    are embedded here as functions [CalcState -> CalcState].

    The state holds JavaScript numbers and converts between numbers and
    strings on almost every transition ([Number(...)] and [String(...)]), so
    the development starts with a model of the runtime's Number type:
    IEEE 754 binary64 values (the Standard Library's [spec_float] at
    precision 53), [Number::toString] and [StringToNumber] as ECMA-262
    defines them. *)

From Stdlib Require Import ZArith Bool List Lia.
From Stdlib Require Import Strings.String Strings.Ascii.
From Stdlib Require Import Numbers.DecimalString Numbers.DecimalPos.
From Stdlib Require Import Floats.SpecFloat.
Import ListNotations.

Local Open Scope string_scope.
Local Open Scope Z_scope.

(** ** Strings

    JavaScript strings are sequences of UTF-16 code units; the display only
    ever holds characters of the ASCII range, and strings are modelled as
    Rocq strings.  The one non-ASCII literal of the source, the infinity
    sign tested by [formatForDisplay], is only compared for equality. *)

Module Str.

(** [s.includes(c)] for a one-character needle. *)
Fixpoint includes (c : ascii) (s : string) : bool :=
  match s with
  | EmptyString => false
  | String a s' => if Ascii.eqb a c then true else includes c s'
  end.

(** Number of occurrences of a character. *)
Fixpoint count (c : ascii) (s : string) : nat :=
  match s with
  | EmptyString => O
  | String a s' => ((if Ascii.eqb a c then 1 else 0) + count c s')%nat
  end.

(** [s.replace] of the pattern [/,/g] by the empty string: every comma
    removed. *)
Fixpoint stripCommas (s : string) : string :=
  match s with
  | EmptyString => EmptyString
  | String a s' =>
      if Ascii.eqb a "," then stripCommas s' else String a (stripCommas s')
  end.

(** [s.startsWith("-")]. *)
Definition startsWithMinus (s : string) : bool :=
  match s with
  | String a _ => Ascii.eqb a "-"
  | EmptyString => false
  end.

(** [s.slice(1)]. *)
Definition slice1 (s : string) : string :=
  match s with
  | String _ s' => s'
  | EmptyString => EmptyString
  end.

(** [s.split(".")]: the pieces between the points, at least one. *)
Fixpoint splitDot (s : string) : list string :=
  match s with
  | EmptyString => [EmptyString]
  | String a s' =>
      if Ascii.eqb a "." then EmptyString :: splitDot s'
      else match splitDot s' with
           | piece :: rest => String a piece :: rest
           | [] => [String a EmptyString]
           end
  end.

(** A run of [n] zero characters. *)
Fixpoint zeros (n : nat) : string :=
  match n with
  | O => EmptyString
  | S n' => String "0" (zeros n')
  end.

Definition isDigit (a : ascii) : bool :=
  let n := nat_of_ascii a in (48 <=? n)%nat && (n <=? 57)%nat.

(** Every character satisfies [P]. *)
Fixpoint all (P : ascii -> bool) (s : string) : bool :=
  match s with
  | EmptyString => true
  | String a s' => P a && all P s'
  end.

(** Number of characters that satisfy [P]. *)
Fixpoint countIf (P : ascii -> bool) (s : string) : nat :=
  match s with
  | EmptyString => O
  | String a s' => ((if P a then 1 else 0) + countIf P s')%nat
  end.

End Str.

(** ** JavaScript numbers *)

Module JS.

Definition number : Type := spec_float.

Definition prec : Z := 53.
Definition emax : Z := 1024.

Definition NaN : number := S754_nan.
Definition Infinity : number := S754_infinity false.

Definition add : number -> number -> number := SFadd prec emax.
Definition sub : number -> number -> number := SFsub prec emax.
Definition mul : number -> number -> number := SFmul prec emax.
Definition div : number -> number -> number := SFdiv prec emax.

(** [Number.isFinite]. *)
Definition isFinite (x : number) : bool :=
  match x with
  | S754_zero _ | S754_finite _ _ _ => true
  | S754_infinity _ | S754_nan => false
  end.

(** [x === 0]: both zeros compare equal to [0]. *)
Definition isZero (x : number) : bool :=
  match x with
  | S754_zero _ => true
  | _ => false
  end.

(** Structural equality; on valid binary64 values it is equality of the
    represented value together with the sign of zero. *)
Definition same (x y : number) : bool :=
  match x, y with
  | S754_zero a, S754_zero b => Bool.eqb a b
  | S754_infinity a, S754_infinity b => Bool.eqb a b
  | S754_nan, S754_nan => true
  | S754_finite a m e, S754_finite b m' e' =>
      Bool.eqb a b && Pos.eqb m m' && Z.eqb e e'
  | _, _ => false
  end.

(** The binary64 value nearest to [num / den] (ties to even), for
    [num >= 0] and [den > 0], with the given sign. *)
Definition ofRatio (sign : bool) (num den : Z) : number :=
  let '(q, e, l) := SFdiv_core_binary prec emax num 0 den 0 in
  binary_round_aux prec emax sign q e l.

(** The binary64 value nearest to [m * 10^p], for [m >= 0]. *)
Definition ofDecimal (sign : bool) (m p : Z) : number :=
  if 0 <=? p then ofRatio sign (m * 10 ^ p) 1
  else ofRatio sign m (10 ^ (- p)).

(** The binary64 value nearest to the integer [z]. *)
Definition ofZ (z : Z) : number :=
  ofRatio (z <? 0) (Z.abs z) 1.

(** Decimal digits of a non-negative integer. *)
Definition digitsOf (z : Z) : string :=
  NilEmpty.string_of_uint (N.to_uint (Z.to_N z)).

(** *** Number::toString (ECMA-262, radix 10)

    For a finite positive [x], the standard picks integers [n], [k], [s]
    with [10^(k-1) <= s < 10^k], such that [s * 10^(n-k)] reads back as
    [x] and [k] is as small as possible; among several [s] the one nearest
    to [x], and the even one on a tie.  The value of [x] is kept as the
    fraction [num / den]. *)

(** [10^t <= num / den]. *)
Definition pow10Le (t num den : Z) : bool :=
  if 0 <=? t then 10 ^ t * den <=? num else den <=? num * 10 ^ (- t).

(** The [n] with [10^(n-1) <= num / den < 10^n]. *)
Definition decimalExponent (num den : Z) : Z :=
  let t := Z.of_nat (String.length (digitsOf num))
           - Z.of_nat (String.length (digitsOf den)) in
  if pow10Le t num den then t + 1 else t.

(** [floor ((num / den) / 10^p)]. *)
Definition scaledFloor (num den p : Z) : Z :=
  if 0 <=? p then num / (den * 10 ^ p) else (num * 10 ^ (- p)) / den.

(** Position of [num / den] against the midpoint [(2 lo + 1) / 2 * 10^p]. *)
Definition compareMid (num den lo p : Z) : comparison :=
  if 0 <=? p then (2 * num) ?= ((2 * lo + 1) * den * 10 ^ p)
  else (2 * num * 10 ^ (- p)) ?= ((2 * lo + 1) * den).

(** Does [s * 10^p] read back as [x]? *)
Definition readsAs (x : number) (s p : Z) : bool :=
  same (ofDecimal false s p) x.

(** Search for the shortest digit string, from [k] digits upwards.  The
    result is [(s, p)], meaning [s * 10^p]. *)
Fixpoint shortest (fuel : nat) (k : Z) (x : number) (num den n : Z)
  : Z * Z :=
  let p := n - k in
  let lo := scaledFloor num den p in
  let hi := lo + 1 in
  match fuel with
  | O => (lo, p)
  | S fuel' =>
      match readsAs x lo p, readsAs x hi p with
      | true, true =>
          match compareMid num den lo p with
          | Lt => (lo, p)
          | Gt => (hi, p)
          | Eq => if Z.even lo then (lo, p) else (hi, p)
          end
      | true, false => (lo, p)
      | false, true => (hi, p)
      | false, false => shortest fuel' (k + 1) x num den n
      end
  end.

(** The digits of [s] and the exponent [n] of the standard, for the
    positive finite value [m * 2^e]. *)
Definition shortestDigits (m : positive) (e : Z) : string * Z :=
  let num := if 0 <=? e then Zpos m * 2 ^ e else Zpos m in
  let den := if 0 <=? e then 1 else 2 ^ (- e) in
  let n := decimalExponent num den in
  let '(s, p) := shortest 17 1 (S754_finite false m e) num den n in
  let k := Z.of_nat (String.length (digitsOf s)) in
  if s =? 10 ^ (k - 1) then ("1", p + k) else (digitsOf s, p + k).

(** Steps 6 and 7 of Number::toString: the layout of the digits. *)
Definition layout (digits : string) (n : Z) : string :=
  let k := Z.of_nat (String.length digits) in
  if (-5 <=? n) && (n <=? 21) then
    if k <=? n then digits ++ Str.zeros (Z.to_nat (n - k))
    else if 0 <? n then
      substring 0 (Z.to_nat n) digits ++ "."
        ++ substring (Z.to_nat n) (Z.to_nat (k - n)) digits
    else "0." ++ Str.zeros (Z.to_nat (- n)) ++ digits
  else
    let e := n - 1 in
    let es := (if e <? 0 then "-" else "+") ++ digitsOf (Z.abs e) in
    if k =? 1 then digits ++ "e" ++ es
    else substring 0 1 digits ++ "."
           ++ substring 1 (Z.to_nat (k - 1)) digits ++ "e" ++ es.

(** [String(x)] for a number [x]. *)
Definition toString (x : number) : string :=
  match x with
  | S754_nan => "NaN"
  | S754_zero _ => "0"
  | S754_infinity s => if s then "-Infinity" else "Infinity"
  | S754_finite s m e =>
      let '(digits, n) := shortestDigits m e in
      (if s then "-" else EmptyString) ++ layout digits n
  end.

(** *** StringToNumber (ECMA-262): [Number(s)] for a string [s]

    White space is trimmed (the ASCII white space characters are
    modelled), the empty string reads as [+0], an unsigned literal with a
    [0x], [0o] or [0b] prefix is read in that radix, and anything else is a
    signed decimal literal or [Infinity]; every other string is [NaN]. *)

Definition isWhite (a : ascii) : bool :=
  let n := nat_of_ascii a in
  ((9 <=? n) && (n <=? 13) || (n =? 32))%nat.

Fixpoint trimStart (s : string) : string :=
  match s with
  | String a s' => if isWhite a then trimStart s' else s
  | EmptyString => EmptyString
  end.

Fixpoint trimEnd (s : string) : string :=
  match s with
  | String a s' =>
      match trimEnd s' with
      | EmptyString => if isWhite a then EmptyString else String a EmptyString
      | t => String a t
      end
  | EmptyString => EmptyString
  end.

Definition digitValue (base : Z) (a : ascii) : option Z :=
  let n := Z.of_nat (nat_of_ascii a) in
  let v := if (48 <=? n) && (n <=? 57) then n - 48
           else if (97 <=? n) && (n <=? 102) then n - 87
           else if (65 <=? n) && (n <=? 70) then n - 55
           else base in
  if v <? base then Some v else None.

(** Reads the longest run of digits: the value accumulated on top of
    [acc], the number of digits read, and the rest of the string. *)
Fixpoint readDigits (base acc : Z) (cnt : nat) (s : string)
  : Z * nat * string :=
  match s with
  | String a s' =>
      match digitValue base a with
      | Some d => readDigits base (acc * base + d) (S cnt) s'
      | None => (acc, cnt, s)
      end
  | EmptyString => (acc, cnt, s)
  end.

Definition radixPrefix (s : string) : option (Z * string) :=
  match s with
  | String "0" (String c r) =>
      if Ascii.eqb c "x" || Ascii.eqb c "X" then Some (16, r)
      else if Ascii.eqb c "o" || Ascii.eqb c "O" then Some (8, r)
      else if Ascii.eqb c "b" || Ascii.eqb c "B" then Some (2, r)
      else None
  | _ => None
  end.

(** The optional exponent part, which must end the literal. *)
Definition readExponent (s : string) : option Z :=
  match s with
  | EmptyString => Some 0
  | String c r =>
      if Ascii.eqb c "e" || Ascii.eqb c "E" then
        let '(neg, r') := match r with
                          | String "-" t => (true, t)
                          | String "+" t => (false, t)
                          | _ => (false, r)
                          end in
        match readDigits 10 0 0 r' with
        | (v, S _, EmptyString) => Some (if neg then - v else v)
        | _ => None
        end
      else None
  end.

Definition readDecimal (sign : bool) (s : string) : number :=
  if String.eqb s "Infinity" then S754_infinity sign
  else
    let '(i, ni, r1) := readDigits 10 0 0 s in
    let '(m, nf, r2) := match r1 with
                        | String "." r => readDigits 10 i 0 r
                        | _ => (i, O, r1)
                        end in
    if (ni + nf =? 0)%nat then NaN
    else match readExponent r2 with
         | Some e => ofDecimal sign m (e - Z.of_nat nf)
         | None => NaN
         end.

Definition toNumber (s : string) : number :=
  let t := trimEnd (trimStart s) in
  match t with
  | EmptyString => S754_zero false
  | String c r =>
      match radixPrefix t with
      | Some (base, ds) =>
          match readDigits base 0 0 ds with
          | (v, S _, EmptyString) => ofZ v
          | _ => NaN
          end
      | None =>
          if Ascii.eqb c "-" then readDecimal true r
          else if Ascii.eqb c "+" then readDecimal false r
          else readDecimal false t
      end
  end.

End JS.

(** ** The calculator state and its transitions *)

(** [type Operator = "+" | "-" | "×" | "÷"]. *)
Inductive Operator : Type := Plus | Minus | Times | Divide.

Record CalcState : Type := mkState {
  display : string;
  accumulator : option JS.number;
  operator : option Operator;
  waitingForSecond : bool;
  lastOp : option Operator;
  lastArg : option JS.number
}.

(** [x !== null], and the truthiness of an operator or [null]. *)
Definition isSet {A : Type} (x : option A) : bool :=
  match x with
  | Some _ => true
  | None => false
  end.

(** The argument of [useState]. *)
Definition initial : CalcState :=
  {| display := "0";
     accumulator := None;
     operator := None;
     waitingForSecond := false;
     lastOp := None;
     lastArg := None |}.

Definition clearAll : CalcState := initial.

Definition clearEntry (s : CalcState) : CalcState :=
  {| display := "0";
     accumulator := accumulator s;
     operator := operator s;
     waitingForSecond := if isSet (operator s) then true else false;
     lastOp := lastOp s;
     lastArg := lastArg s |}.

(** [{ ...s, display: d }]. *)
Definition withDisplay (d : string) (s : CalcState) : CalcState :=
  {| display := d;
     accumulator := accumulator s;
     operator := operator s;
     waitingForSecond := waitingForSecond s;
     lastOp := lastOp s;
     lastArg := lastArg s |}.

(** [{ ...s, display: d, waitingForSecond: false }]. *)
Definition withFreshDisplay (d : string) (s : CalcState) : CalcState :=
  {| display := d;
     accumulator := accumulator s;
     operator := operator s;
     waitingForSecond := false;
     lastOp := lastOp s;
     lastArg := lastArg s |}.

Definition inputDigit (d : string) (s : CalcState) : CalcState :=
  if waitingForSecond s then withFreshDisplay d s
  else if String.eqb (display s) "0" then withDisplay d s
  else if (12 <=? String.length (Str.stripCommas (display s)))%nat then s
  else withDisplay (display s ++ d) s.

Definition inputDot (s : CalcState) : CalcState :=
  if waitingForSecond s then withFreshDisplay "0." s
  else if Str.includes "." (display s) then s
  else withDisplay (display s ++ ".") s.

Definition toggleSign (s : CalcState) : CalcState :=
  let raw := Str.stripCommas (display s) in
  if String.eqb raw "0" then s
  else if Str.startsWithMinus raw then withDisplay (Str.slice1 raw) s
  else withDisplay ("-" ++ raw) s.

(** The literal [100] of the source. *)
Definition hundred : JS.number := JS.ofZ 100.

Definition percent (s : CalcState) : CalcState :=
  let raw := JS.toNumber (Str.stripCommas (display s)) in
  if negb (JS.isFinite raw) then s
  else
    match accumulator s, operator s with
    | Some acc, Some (Plus | Minus) =>
        let v := JS.div (JS.mul acc raw) hundred in
        withDisplay (JS.toString v) s
    | Some _, Some (Times | Divide) =>
        let v := JS.div raw hundred in
        withDisplay (JS.toString v) s
    | _, _ =>
        let v := JS.div raw hundred in
        withDisplay (JS.toString v) s
    end.

Definition compute (a b : JS.number) (op : Operator) : JS.number :=
  match op with
  | Plus => JS.add a b
  | Minus => JS.sub a b
  | Times => JS.mul a b
  | Divide => if JS.isZero b then JS.Infinity else JS.div a b
  end.

Definition setOperator (op : Operator) (s : CalcState) : CalcState :=
  let a := accumulator s in
  let b := JS.toNumber (Str.stripCommas (display s)) in
  match operator s, waitingForSecond s, a with
  | Some pending, false, Some a' =>
      let res := compute a' b pending in
      {| display := JS.toString res;
         accumulator := Some res;
         operator := Some op;
         waitingForSecond := true;
         lastOp := None;
         lastArg := None |}
  | _, _, _ =>
      {| display := display s;
         accumulator := Some b;
         operator := Some op;
         waitingForSecond := true;
         lastOp := None;
         lastArg := None |}
  end.

Definition equals (s : CalcState) : CalcState :=
  let a := accumulator s in
  let b := JS.toNumber (Str.stripCommas (display s)) in
  match operator s, a, waitingForSecond s with
  | Some pending, Some a', false =>
      let res := compute a' b pending in
      {| display := JS.toString res;
         accumulator := Some res;
         operator := None;
         waitingForSecond := false;
         lastOp := Some pending;
         lastArg := Some b |}
  | _, _, _ =>
      match lastOp s, lastArg s with
      | Some op, Some arg =>
          let res := compute b arg op in
          {| display := JS.toString res;
             accumulator := Some res;
             operator := operator s;
             waitingForSecond := waitingForSecond s;
             lastOp := lastOp s;
             lastArg := lastArg s |}
      | _, _ => s
      end
  end.

(** The test of [onClear] and [clearLabel]: something is left to clear. *)
Definition dirty (s : CalcState) : bool :=
  negb (String.eqb (display s) "0")
  || isSet (accumulator s) || isSet (operator s).

(** [onClear] tests the rendered state and then updates the current one;
    keys are handled one per render, so the two are the same state. *)
Definition onClear (s : CalcState) : CalcState :=
  if dirty s then clearEntry s else clearAll.

Definition clearLabel (s : CalcState) : string :=
  if dirty s then "C" else "AC".

Definition Operator_eqb (a b : Operator) : bool :=
  match a, b with
  | Plus, Plus | Minus, Minus | Times, Times | Divide, Divide => true
  | _, _ => false
  end.

Definition opActive (s : CalcState) (op : Operator) : bool :=
  match operator s with
  | Some o => Operator_eqb o op && waitingForSecond s
  | None => false
  end.

(** ** The display formatter

    [toLocaleString] depends on the locale of the runtime and is a
    parameter of the formatter. *)

Section Formatter.

Variable toLocaleString : JS.number -> string.

Definition formatForDisplay (value : string) : string :=
  if String.eqb value "∞" || String.eqb value "NaN" then value
  else if negb (Str.includes "." value) then
    let n := JS.toNumber value in
    if negb (JS.isFinite n) then value else toLocaleString n
  else
    match Str.splitDot value with
    | int :: dec :: _ =>
        let n := JS.toNumber int in
        let intPart := if JS.isFinite n then toLocaleString n else int in
        intPart ++ "." ++ dec
    | _ => value
    end.

End Formatter.

(** ** Keys

    The buttons of the component: each one calls one handler. *)

Inductive Digit : Type := D0 | D1 | D2 | D3 | D4 | D5 | D6 | D7 | D8 | D9.

Definition digitLabel (d : Digit) : string :=
  match d with
  | D0 => "0" | D1 => "1" | D2 => "2" | D3 => "3" | D4 => "4"
  | D5 => "5" | D6 => "6" | D7 => "7" | D8 => "8" | D9 => "9"
  end.

Inductive Key : Type :=
| KDigit (d : Digit)
| KDot
| KSign
| KPercent
| KOp (op : Operator)
| KEquals
| KClear.

Definition press (k : Key) (s : CalcState) : CalcState :=
  match k with
  | KDigit d => inputDigit (digitLabel d) s
  | KDot => inputDot s
  | KSign => toggleSign s
  | KPercent => percent s
  | KOp op => setOperator op s
  | KEquals => equals s
  | KClear => onClear s
  end.

(** The state after a sequence of key presses, first key first. *)
Definition run (keys : list Key) (s : CalcState) : CalcState :=
  fold_left (fun st k => press k st) keys s.

(** The states the component can be in. *)
Inductive reachable : CalcState -> Prop :=
| reach_initial : reachable initial
| reach_press : forall k s, reachable s -> reachable (press k s).

(** ** Notions used by the statements below *)

(** The characters a display can hold: digits, the point, the signs, and
    the letters of [e], [Infinity] and [NaN]. *)
Definition displayChar (a : ascii) : bool :=
  Str.isDigit a || Str.includes a ".-+eInfinityNaN".

(** The number of digits shown, separators and sign left out. *)
Definition digitCount (s : CalcState) : nat :=
  Str.countIf Str.isDigit (display s).

(** The length the digit cap of [inputDigit] tests: every character of the
    display except the commas. *)
Definition shownLength (s : CalcState) : nat :=
  String.length (Str.stripCommas (display s)).

(** The number the display reads as, [current] in the source. *)
Definition current (s : CalcState) : JS.number :=
  JS.toNumber (Str.stripCommas (display s)).

(** What holds of the optional fields in every state the component reaches:
    the flag is only set under a pending operator, and the repeat pair only
    exists together with an accumulator. *)
Definition coherent (s : CalcState) : Prop :=
  (waitingForSecond s = true -> isSet (operator s) = true)
  /\ (isSet (lastOp s) = true -> isSet (accumulator s) = true)
  /\ (isSet (lastArg s) = true -> isSet (accumulator s) = true).

(** Small integers as numbers, for the examples. *)
Definition num (z : Z) : JS.number := JS.ofZ z.

(** ** Notions used by the further properties *)

(** The optional fields hang together: the flag needs a pending operator, a
    pending operator needs an accumulator, the repeat pair is set or unset
    as a pair, and it excludes a pending operator. *)
Definition settled (s : CalcState) : Prop :=
  (waitingForSecond s = true -> isSet (operator s) = true)
  /\ (isSet (operator s) = true -> isSet (accumulator s) = true)
  /\ isSet (lastOp s) = isSet (lastArg s)
  /\ (isSet (lastOp s) = true ->
      isSet (accumulator s) = true /\ operator s = None).

(** The next digit starts a number: the flag is set or the display
    is [0]. *)
Definition fresh (s : CalcState) : bool :=
  waitingForSecond s || String.eqb (display s) "0".

(** The labels of a run of digit keys, in order. *)
Fixpoint labels (ds : list Digit) : string :=
  match ds with
  | [] => EmptyString
  | d :: ds' => digitLabel d ++ labels ds'
  end.

(** A run of digit keys without its leading zeros. *)
Fixpoint dropZeros (ds : list Digit) : list Digit :=
  match ds with
  | D0 :: ds' => dropZeros ds'
  | _ => ds
  end.

(** The digits that a run of digit keys leaves on a fresh display: the
    leading zeros collapse and at most twelve digits are kept. *)
Definition keptDigits (ds : list Digit) : list Digit :=
  firstn 12 (dropZeros ds).

(** The text of those digits, [0] when none is left. *)
Definition entryText (ds : list Digit) : string :=
  match keptDigits ds with
  | [] => "0"
  | kept => labels kept
  end.

(** The text before the point of a typed decimal: [0] when the point is
    the first key. *)
Definition wholeText (ds : list Digit) : string :=
  match ds with
  | [] => "0"
  | _ => entryText ds
  end.

Definition digitZ (d : Digit) : Z :=
  match d with
  | D0 => 0 | D1 => 1 | D2 => 2 | D3 => 3 | D4 => 4
  | D5 => 5 | D6 => 6 | D7 => 7 | D8 => 8 | D9 => 9
  end.

(** The integer a run of digits denotes. *)
Definition digitsZ (ds : list Digit) : Z :=
  fold_left (fun acc d => acc * 10 + digitZ d) ds 0.

Definition isOpKey (k : Key) : bool :=
  match k with
  | KOp _ => true
  | _ => false
  end.

Definition isMinus (a : ascii) : bool := Ascii.eqb a "-".

Definition isSign (a : ascii) : bool := Ascii.eqb a "-" || Ascii.eqb a "+".

(** A numeral without a sign in front: not empty, and its first character
    is no sign. *)
Definition unsignedText (s : string) : bool :=
  match s with
  | String a _ => negb (isSign a)
  | EmptyString => false
  end.

(** The display without one leading minus sign. *)
Definition magnitudeText (s : string) : string :=
  if Str.startsWithMinus s then Str.slice1 s else s.

(** * Properties *)

(** Case analysis on every test of a handler. *)
Ltac split_ifs :=
  repeat match goal with
         | |- context [if ?b then _ else _] => destruct b eqn:?
         | |- context [match ?x with Some _ => _ | None => _ end] =>
             destruct x eqn:?
         | |- context [match ?x with Plus => _ | _ => _ end] =>
             destruct x eqn:?
         end.

(** ** Strings *)

Section StringFacts.

Variable P : ascii -> bool.

Lemma all_app (s t : string) :
  Str.all P (s ++ t) = Str.all P s && Str.all P t.
Proof.
  induction s as [|a s IH]; simpl; [reflexivity|].
  now rewrite IH, andb_assoc.
Qed.

Lemma all_substring (s : string) :
  Str.all P s = true -> forall n m, Str.all P (substring n m s) = true.
Proof.
  induction s as [|a s IH]; intros H n m.
  - destruct n, m; reflexivity.
  - simpl in H. apply andb_prop in H as [Ha Hs].
    destruct n as [|n]; [destruct m as [|m]|]; simpl; auto.
    now rewrite Ha, IH.
Qed.

Lemma all_zeros (n : nat) : P "0" = true -> Str.all P (Str.zeros n) = true.
Proof. intros H. induction n; simpl; [reflexivity | now rewrite H]. Qed.

Lemma all_stripCommas (s : string) :
  Str.all P s = true -> Str.all P (Str.stripCommas s) = true.
Proof.
  induction s as [|a s IH]; simpl; [reflexivity|].
  intros H. apply andb_prop in H as [Ha Hs].
  destruct (Ascii.eqb a ","); simpl; auto. now rewrite Ha, IH.
Qed.

Lemma all_slice1 (s : string) :
  Str.all P s = true -> Str.all P (Str.slice1 s) = true.
Proof.
  destruct s; simpl; [reflexivity|]. intros H. now apply andb_prop in H.
Qed.

Lemma all_weaken (Q : ascii -> bool) (s : string) :
  (forall a, P a = true -> Q a = true) ->
  Str.all P s = true -> Str.all Q s = true.
Proof.
  intros HPQ. induction s as [|a s IH]; simpl; [reflexivity|].
  intros H. apply andb_prop in H as [Ha Hs]. now rewrite (HPQ a Ha), IH.
Qed.

End StringFacts.

Lemma count_app (c : ascii) (s t : string) :
  Str.count c (s ++ t) = (Str.count c s + Str.count c t)%nat.
Proof.
  induction s as [|a s IH]; simpl; [reflexivity|]. rewrite IH. lia.
Qed.

Lemma count_none (P : ascii -> bool) (c : ascii) (s : string) :
  P c = false -> Str.all P s = true -> Str.count c s = 0%nat.
Proof.
  intros Hc. induction s as [|a s IH]; simpl; [reflexivity|].
  intros H. apply andb_prop in H as [Ha Hs].
  destruct (Ascii.eqb_spec a c) as [->|_]; [congruence|]. now rewrite IH.
Qed.

Lemma count_includes (c : ascii) (s : string) :
  Str.includes c s = false -> Str.count c s = 0%nat.
Proof.
  induction s as [|a s IH]; simpl; [reflexivity|].
  destruct (Ascii.eqb a c); [discriminate|]. exact IH.
Qed.

Lemma count_stripCommas (c : ascii) (s : string) :
  (Str.count c (Str.stripCommas s) <= Str.count c s)%nat.
Proof.
  induction s as [|a s IH]; simpl; [lia|].
  destruct (Ascii.eqb a ","); simpl; lia.
Qed.

Lemma count_slice1 (c : ascii) (s : string) :
  (Str.count c (Str.slice1 s) <= Str.count c s)%nat.
Proof. destruct s; simpl; lia. Qed.

Lemma length_stripCommas (s : string) :
  (Str.countIf Str.isDigit s <= String.length (Str.stripCommas s))%nat.
Proof.
  induction s as [|a s IH]; simpl; [lia|].
  destruct (Ascii.eqb_spec a ",") as [->|_]; simpl.
  - exact IH.
  - destruct (Str.isDigit a); lia.
Qed.

Lemma isDigit_displayChar (a : ascii) :
  Str.isDigit a = true -> displayChar a = true.
Proof. unfold displayChar. now intros ->. Qed.

Lemma digitLabel_digits (d : Digit) :
  Str.all Str.isDigit (digitLabel d) = true.
Proof. now destruct d. Qed.

(** ** Numbers to strings *)

Lemma string_of_uint_digits (u : Decimal.uint) :
  Str.all Str.isDigit (NilEmpty.string_of_uint u) = true.
Proof. induction u; simpl; auto. Qed.

Lemma digitsOf_digits (z : Z) : Str.all Str.isDigit (JS.digitsOf z) = true.
Proof. apply string_of_uint_digits. Qed.

Lemma shortestDigits_digits (m : positive) (e : Z) :
  Str.all Str.isDigit (fst (JS.shortestDigits m e)) = true.
Proof.
  unfold JS.shortestDigits.
  destruct (JS.shortest _ _ _ _ _ _) as [s p].
  destruct (s =? _); simpl; [reflexivity | apply digitsOf_digits].
Qed.

Lemma digits_no_point (s : string) :
  Str.all Str.isDigit s = true -> Str.count "." s = 0%nat.
Proof. now apply count_none. Qed.

Lemma layout_chars (digits : string) (n : Z) :
  Str.all Str.isDigit digits = true ->
  Str.all displayChar (JS.layout digits n) = true.
Proof.
  intros H.
  assert (Hd : Str.all displayChar digits = true)
    by (revert H; apply all_weaken, isDigit_displayChar).
  assert (Hsub : forall a b, Str.all displayChar (substring a b digits) = true)
    by (intros; now apply all_substring).
  assert (Hnum : forall z, Str.all displayChar (JS.digitsOf z) = true)
    by (intros; eapply all_weaken;
        [apply isDigit_displayChar | apply digitsOf_digits]).
  unfold JS.layout.
  repeat match goal with
         | |- context [if ?b then _ else _] => destruct b
         end;
    repeat rewrite all_app;
    repeat rewrite Hsub; repeat rewrite Hnum; repeat rewrite Hd;
    repeat rewrite all_zeros by reflexivity; reflexivity.
Qed.

Lemma layout_points (digits : string) (n : Z) :
  Str.all Str.isDigit digits = true ->
  (Str.count "." (JS.layout digits n) <= 1)%nat.
Proof.
  intros H.
  assert (Hsub : forall a b, Str.count "." (substring a b digits) = 0%nat)
    by (intros; now apply digits_no_point, all_substring).
  assert (Hnum : forall z, Str.count "." (JS.digitsOf z) = 0%nat)
    by (intros; apply digits_no_point, digitsOf_digits).
  assert (Hz : forall k, Str.count "." (Str.zeros k) = 0%nat)
    by (intros; now apply digits_no_point, all_zeros).
  unfold JS.layout.
  repeat match goal with
         | |- context [if ?b then _ else _] => destruct b
         end;
    repeat rewrite count_app;
    repeat rewrite Hsub; repeat rewrite Hnum; repeat rewrite Hz;
    repeat rewrite (digits_no_point _ H); simpl; lia.
Qed.

(** [String(x)] only produces display characters. *)
Lemma toString_chars (x : JS.number) :
  Str.all displayChar (JS.toString x) = true.
Proof.
  destruct x as [s|s| |s m e]; simpl; try reflexivity.
  - now destruct s.
  - pose proof (shortestDigits_digits m e) as H.
    destruct (JS.shortestDigits m e) as [digits n]; simpl in H.
    rewrite all_app, (layout_chars _ _ H). now destruct s.
Qed.

(** [String(x)] holds at most one decimal point. *)
Lemma toString_points (x : JS.number) :
  (Str.count "." (JS.toString x) <= 1)%nat.
Proof.
  destruct x as [s|s| |s m e]; simpl; try lia.
  - destruct s; simpl; lia.
  - pose proof (shortestDigits_digits m e) as H.
    destruct (JS.shortestDigits m e) as [digits n]; simpl in H.
    rewrite count_app. pose proof (layout_points _ n H).
    destruct s; simpl; lia.
Qed.

(** ** Invariants of the reachable states *)

Lemma run_app (ks1 ks2 : list Key) (s : CalcState) :
  run (ks1 ++ ks2) s = run ks2 (run ks1 s).
Proof. apply fold_left_app. Qed.

Lemma run_reachable (keys : list Key) :
  forall s, reachable s -> reachable (run keys s).
Proof.
  induction keys as [|k keys IH]; intros s Hs; simpl; [exact Hs|].
  apply IH. now constructor.
Qed.

Lemma press_points (k : Key) (s : CalcState) :
  (Str.count "." (display s) <= 1)%nat ->
  (Str.count "." (display (press k s)) <= 1)%nat.
Proof.
  intros H.
  destruct k as [d| | | |op| |]; simpl.
  - unfold inputDigit. split_ifs; simpl; auto.
    + rewrite (digits_no_point _ (digitLabel_digits d)). lia.
    + rewrite (digits_no_point _ (digitLabel_digits d)). lia.
    + rewrite count_app, (digits_no_point _ (digitLabel_digits d)). lia.
  - unfold inputDot. split_ifs; simpl; auto.
    rewrite count_app, count_includes by assumption. simpl. lia.
  - unfold toggleSign.
    pose proof (count_stripCommas "." (display s)).
    pose proof (count_slice1 "." (Str.stripCommas (display s))).
    split_ifs; simpl; lia.
  - unfold percent. split_ifs; simpl; auto using toString_points.
  - unfold setOperator. split_ifs; simpl; auto using toString_points.
  - unfold equals. split_ifs; simpl; auto using toString_points.
  - unfold onClear, clearEntry, clearAll. split_ifs; simpl; lia.
Qed.

Lemma press_chars (k : Key) (s : CalcState) :
  Str.all displayChar (display s) = true ->
  Str.all displayChar (display (press k s)) = true.
Proof.
  intros H.
  assert (Hd : forall d, Str.all displayChar (digitLabel d) = true)
    by (intros d; now destruct d).
  destruct k as [d| | | |op| |]; simpl.
  - unfold inputDigit. split_ifs; simpl; auto.
    rewrite all_app, H. apply Hd.
  - unfold inputDot. split_ifs; simpl; auto.
    rewrite all_app, H. reflexivity.
  - unfold toggleSign. split_ifs; simpl; auto.
    + now apply all_slice1, all_stripCommas.
    + now apply all_stripCommas.
  - unfold percent. split_ifs; simpl; auto using toString_chars.
  - unfold setOperator. split_ifs; simpl; auto using toString_chars.
  - unfold equals. split_ifs; simpl; auto using toString_chars.
  - unfold onClear, clearEntry, clearAll. split_ifs; reflexivity.
Qed.

Lemma press_coherent (k : Key) (s : CalcState) :
  coherent s -> coherent (press k s).
Proof.
  unfold coherent. destruct s as [dsp acc o w lo la]. simpl.
  intros (Hw & Hop & Harg).
  destruct k as [d| | | |op| |]; simpl;
    unfold inputDigit, inputDot, toggleSign, percent, setOperator, equals,
      onClear, clearEntry, clearAll, dirty; simpl;
    split_ifs; simpl; repeat split; intros; auto; congruence.
Qed.

Lemma reachable_points (s : CalcState) :
  reachable s -> (Str.count "." (display s) <= 1)%nat.
Proof.
  induction 1 as [|k s _ IH]; [simpl; lia | now apply press_points].
Qed.

Lemma reachable_chars (s : CalcState) :
  reachable s -> Str.all displayChar (display s) = true.
Proof.
  induction 1 as [|k s _ IH]; [reflexivity | now apply press_chars].
Qed.

Lemma reachable_coherent (s : CalcState) : reachable s -> coherent s.
Proof.
  induction 1 as [|k s _ IH]; [|now apply press_coherent].
  repeat split; discriminate.
Qed.

(** ** Clear *)

(** On a clean state [onClear] resets every field. *)
Lemma onClear_clean (s : CalcState) : dirty s = false -> onClear s = initial.
Proof. unfold onClear. now intros ->. Qed.

(** On a dirty state [onClear] is the clear-entry: the display returns to
    [0], the flag is set exactly under a pending operator, and the other
    four fields are kept. *)
Lemma onClear_dirty (s : CalcState) :
  dirty s = true ->
  onClear s = mkState "0" (accumulator s) (operator s) (isSet (operator s))
                      (lastOp s) (lastArg s).
Proof.
  unfold onClear, clearEntry. intros ->. now destruct (operator s).
Qed.

(** When neither an accumulator nor an operator is held, the second
    [onClear] is the full reset. *)
Lemma onClear_twice_entry_only (s : CalcState) :
  accumulator s = None -> operator s = None ->
  onClear (onClear s) = initial.
Proof.
  intros Ha Ho. unfold onClear at 2.
  destruct (dirty s); [|reflexivity].
  unfold onClear, dirty, clearEntry. simpl. now rewrite Ha, Ho.
Qed.

(** While an accumulator or an operator is held, the state stays dirty
    under [onClear], whatever the number of presses. *)
Lemma onClear_stays_dirty (s : CalcState) :
  isSet (accumulator s) || isSet (operator s) = true ->
  dirty (onClear s) = true /\ onClear (onClear s) = onClear s.
Proof.
  intros H.
  assert (Hd : dirty s = true).
  { unfold dirty. rewrite <- orb_assoc, H. apply orb_true_r. }
  assert (Hd' : dirty (clearEntry s) = true).
  { unfold dirty, clearEntry. simpl. exact H. }
  unfold onClear. rewrite Hd, Hd'. split; [reflexivity|].
  unfold clearEntry. simpl. now destruct (operator s).
Qed.

(** The reset branch of [onClear] is only ever taken in the initial state:
    a reachable state that is not dirty has every field at its default. *)
Lemma clearAll_only_on_initial (s : CalcState) :
  reachable s -> dirty s = false -> s = initial.
Proof.
  intros Hr Hd. destruct (reachable_coherent s Hr) as (Hw & Hop & Harg).
  destruct s as [dsp acc op w lo la]. unfold dirty in Hd. simpl in *.
  apply orb_false_elim in Hd as [Hd Ho].
  apply orb_false_elim in Hd as [Hd Ha].
  apply negb_false_iff, String.eqb_eq in Hd.
  destruct acc; [discriminate|]. destruct op; [discriminate|].
  destruct lo; [now specialize (Hop eq_refl)|].
  destruct la; [now specialize (Harg eq_refl)|].
  destruct w; [now specialize (Hw eq_refl)|].
  now subst.
Qed.

(** C1, as the code has it: on a clean state clear is the full reset,
    and it changes nothing there in a reachable state; on a dirty state one
    clear returns the display to [0], sets the flag exactly under a pending
    operator and keeps the other fields; a second clear is the full reset
    when neither an accumulator nor an operator is held. *)
Theorem clear_context_sensitive (s : CalcState) :
  (dirty s = false -> onClear s = initial)
  /\ (reachable s -> dirty s = false -> onClear s = s)
  /\ (dirty s = true ->
      onClear s = mkState "0" (accumulator s) (operator s)
                          (isSet (operator s)) (lastOp s) (lastArg s))
  /\ (dirty s = true -> accumulator s = None -> operator s = None ->
      onClear (onClear s) = initial).
Proof.
  split; [apply onClear_clean|].
  split.
  { intros Hr Hd. rewrite (onClear_clean s Hd).
    symmetry. now apply clearAll_only_on_initial. }
  split; [apply onClear_dirty|].
  intros _. apply onClear_twice_entry_only.
Qed.

(** After the key 5 the state is dirty with nothing pending: the second
    clear is the full reset. *)
Lemma clear_context_sensitive_witness :
  let s := run [KDigit D5] initial in
  dirty s = true /\ accumulator s = None /\ operator s = None
  /\ onClear (onClear s) = initial.
Proof.
  do 3 (split; [reflexivity|]).
  exact (proj2 (proj2 (proj2
           (clear_context_sensitive (run [KDigit D5] initial))))
           eq_refl eq_refl eq_refl).
Defined.

(** C1 as stated fails under a pending operation.  After the keys 5 and
    add, the first clear returns the display to [0] and keeps the pending
    addition, and the second clear leaves that state as it is: the
    accumulator and the operator are still there, and the state is not the
    initial one. *)
Lemma clear_twice_keeps_pending_operation :
  let s := run [KDigit D5; KOp Plus] initial in
  dirty s = true
  /\ onClear s = mkState "0" (Some (num 5)) (Some Plus) true None None
  /\ onClear (onClear s) = onClear s
  /\ onClear (onClear s) <> initial.
Proof.
  vm_compute. repeat split; try reflexivity. discriminate.
Qed.

(** ** Division by zero *)

Lemma compute_divide_by_zero (a b : JS.number) :
  JS.isZero b = true -> compute a b Divide = JS.Infinity.
Proof. simpl. now intros ->. Qed.

(** The formatter passes [Infinity] through, whatever the locale. *)
Lemma formatForDisplay_Infinity (toLocaleString : JS.number -> string) :
  formatForDisplay toLocaleString "Infinity" = "Infinity".
Proof. reflexivity. Qed.

(** The infinity sign that [formatForDisplay] tests for is never the
    display of a reachable state. *)
Lemma infinity_sign_never_displayed (s : CalcState) :
  reachable s -> display s <> "∞".
Proof.
  intros Hr Heq. apply reachable_chars in Hr. rewrite Heq in Hr.
  discriminate.
Qed.

(** What [equals] does on a pending division whose second operand reads
    as zero: the result is the positive infinity and no error, the display
    becomes what [String] makes of it, and the formatter returns that text
    unchanged. *)
Lemma divide_by_zero_is_infinity (a : JS.number) (s : CalcState) :
  operator s = Some Divide -> accumulator s = Some a ->
  waitingForSecond s = false -> JS.isZero (current s) = true ->
  accumulator (equals s) = Some JS.Infinity
  /\ display (equals s) = "Infinity"
  /\ (forall toLocaleString,
        formatForDisplay toLocaleString (display (equals s)) = "Infinity")
  /\ equals (run [KDigit D7; KOp Divide; KDigit D0] initial)
     = mkState "Infinity" (Some JS.Infinity) None false
               (Some Divide) (Some (num 0)).
Proof.
  intros Ho Ha Hw Hz.
  assert (E : equals s
              = mkState "Infinity" (Some JS.Infinity) None false
                        (Some Divide) (Some (current s))).
  { unfold equals. rewrite Ho, Ha, Hw.
    fold (current s). now rewrite (compute_divide_by_zero a _ Hz). }
  rewrite E. simpl. repeat split; reflexivity.
Qed.

(** 7, divide, 0 and then equals. *)
Lemma divide_by_zero_is_infinity_witness :
  let s := run [KDigit D7; KOp Divide; KDigit D0] initial in
  operator s = Some Divide /\ accumulator s = Some (num 7)
  /\ waitingForSecond s = false /\ JS.isZero (current s) = true
  /\ accumulator (equals s) = Some JS.Infinity
  /\ display (equals s) = "Infinity".
Proof.
  do 4 (split; [reflexivity|]).
  destruct (divide_by_zero_is_infinity (num 7)
              (run [KDigit D7; KOp Divide; KDigit D0] initial)
              eq_refl eq_refl eq_refl eq_refl) as (Ha & Hd & _).
  exact (conj Ha Hd).
Defined.

(** C2: 7, divide, 0, equals must yield the positive infinity, not an
    error, and the formatter must render it as the infinity sign.  The
    first part holds: the accumulator is the positive infinity.  The
    second does not: the display is the text [Infinity], which is what
    [String] makes of that number, and the formatter returns it as it is.
    The formatter tests for the infinity sign beside [NaN], but no handler
    ever writes that sign into the display
    ([infinity_sign_never_displayed]), so the test is never met. *)
Theorem divide_by_zero_shows_Infinity :
  let s := run [KDigit D7; KOp Divide; KDigit D0; KEquals] initial in
  accumulator s = Some JS.Infinity
  /\ display s = "Infinity"
  /\ (forall toLocaleString,
         formatForDisplay toLocaleString (display s) = "Infinity")
  /\ (forall toLocaleString,
         formatForDisplay toLocaleString (display s) <> "∞").
Proof.
  vm_compute. repeat split; intros; try reflexivity; discriminate.
Qed.

(** ** Digit input *)

Lemma non_finite_not_zero_display (s : CalcState) :
  JS.isFinite (current s) = false -> String.eqb (display s) "0" = false.
Proof.
  intros H. destruct (String.eqb_spec (display s) "0") as [E|_];
    [|reflexivity].
  unfold current in H. rewrite E in H. discriminate.
Qed.

Lemma long_display_not_zero (s : CalcState) :
  (12 <= shownLength s)%nat -> String.eqb (display s) "0" = false.
Proof.
  intros H. destruct (String.eqb_spec (display s) "0") as [E|_];
    [|reflexivity].
  unfold shownLength in H. rewrite E in H. simpl in H. lia.
Qed.

(** C3, as the code has it: with a non-finite display, a digit starts a
    fresh number when [waitingForSecond] is set; when the flag is clear the
    digit goes the way of any other display, appended below 12 characters
    and ignored from 12 on. *)
Theorem digit_after_non_finite (s : CalcState) (d : Digit) :
  JS.isFinite (current s) = false ->
  (waitingForSecond s = true ->
     inputDigit (digitLabel d) s = withFreshDisplay (digitLabel d) s)
  /\ (waitingForSecond s = false -> (shownLength s < 12)%nat ->
        inputDigit (digitLabel d) s
        = withDisplay (display s ++ digitLabel d) s)
  /\ (waitingForSecond s = false -> (12 <= shownLength s)%nat ->
        inputDigit (digitLabel d) s = s).
Proof.
  intros H. pose proof (non_finite_not_zero_display s H) as Hz.
  unfold inputDigit, shownLength. repeat split.
  - now intros ->.
  - intros -> Hlen. rewrite Hz.
    now apply Nat.leb_gt in Hlen as ->.
  - intros -> Hlen. rewrite Hz.
    now apply Nat.leb_le in Hlen as ->.
Qed.

(** The display after 7, divide, 0, equals is not finite, the flag is
    clear, and the key 5 gives [Infinity5]. *)
Lemma digit_after_non_finite_witness :
  let s := run [KDigit D7; KOp Divide; KDigit D0; KEquals] initial in
  JS.isFinite (current s) = false
  /\ inputDigit (digitLabel D5) s = withDisplay (display s ++ "5") s.
Proof.
  split; [reflexivity|].
  apply (digit_after_non_finite
           (run [KDigit D7; KOp Divide; KDigit D0; KEquals] initial) D5);
    [reflexivity | reflexivity | vm_compute; lia].
Defined.

(** C3 as stated fails after equals: the key 5 is appended to the
    non-finite display. *)
Lemma digit_after_infinity_appends :
  let s := run [KDigit D7; KOp Divide; KDigit D0; KEquals] initial in
  reachable s
  /\ JS.isFinite (current s) = false
  /\ display (press (KDigit D5) s) = "Infinity5"
  /\ display (press (KDigit D5) s) <> digitLabel D5.
Proof.
  split; [apply run_reachable; constructor|].
  vm_compute. repeat split; try reflexivity. discriminate.
Qed.

(** C4, as the code has it: with the flag clear, the cap is on the length
    of the display without its commas, the sign and the point included.
    From 12 characters on, and so from 12 digits on, a digit changes
    nothing; below 12 characters it is appended to a display other
    than [0]. *)
Theorem digit_cap (s : CalcState) (d : Digit) :
  waitingForSecond s = false ->
  ((12 <= shownLength s)%nat -> inputDigit (digitLabel d) s = s)
  /\ ((12 <= digitCount s)%nat -> inputDigit (digitLabel d) s = s)
  /\ ((shownLength s < 12)%nat -> display s <> "0" ->
        inputDigit (digitLabel d) s
        = withDisplay (display s ++ digitLabel d) s).
Proof.
  intros Hw.
  assert (Hcap : (12 <= shownLength s)%nat -> inputDigit (digitLabel d) s = s).
  { intros Hlen. unfold inputDigit.
    rewrite Hw, (long_display_not_zero s Hlen).
    unfold shownLength in Hlen. now apply Nat.leb_le in Hlen as ->. }
  repeat split.
  - exact Hcap.
  - intros Hn. apply Hcap.
    pose proof (length_stripCommas (display s)).
    unfold digitCount in Hn. unfold shownLength. lia.
  - intros Hlen Hz. unfold inputDigit. rewrite Hw.
    apply String.eqb_neq in Hz as ->.
    unfold shownLength in Hlen. now apply Nat.leb_gt in Hlen as ->.
Qed.

(** Under the flag the cap does not apply: after twelve digits and an
    operator the next digit starts the second operand. *)
Lemma digit_after_operator_replaces :
  let s := run [KDigit D1; KDigit D2; KDigit D3; KDigit D4; KDigit D5;
                KDigit D6; KDigit D7; KDigit D8; KDigit D9; KDigit D0;
                KDigit D1; KDigit D2; KOp Plus] initial in
  digitCount s = 12%nat
  /\ waitingForSecond s = true
  /\ display (press (KDigit D5) s) = "5".
Proof. vm_compute. repeat split; reflexivity. Qed.

(** Twelve digits typed: the thirteenth changes nothing. *)
Lemma digit_cap_witness :
  let s := run [KDigit D1; KDigit D2; KDigit D3; KDigit D4; KDigit D5;
                KDigit D6; KDigit D7; KDigit D8; KDigit D9; KDigit D0;
                KDigit D1; KDigit D2] initial in
  waitingForSecond s = false /\ inputDigit (digitLabel D3) s = s.
Proof.
  split; [reflexivity|].
  apply (digit_cap
           (run [KDigit D1; KDigit D2; KDigit D3; KDigit D4; KDigit D5;
                 KDigit D6; KDigit D7; KDigit D8; KDigit D9; KDigit D0;
                 KDigit D1; KDigit D2] initial) D3);
    [reflexivity | vm_compute; lia].
Defined.

(** C4 as stated fails under a sign: eleven digits and a minus sign fill
    the twelve characters, and the twelfth digit is ignored although only
    eleven digits are shown. *)
Lemma digit_cap_counts_the_sign :
  let s := run [KDigit D1; KDigit D2; KDigit D3; KDigit D4; KDigit D5;
                KDigit D6; KDigit D7; KDigit D8; KDigit D9; KDigit D0;
                KDigit D1; KSign] initial in
  display s = "-12345678901"
  /\ waitingForSecond s = false
  /\ digitCount s = 11%nat
  /\ press (KDigit D2) s = s
  /\ display (press (KDigit D2) s) <> display s ++ digitLabel D2.
Proof.
  vm_compute. repeat split; try reflexivity. discriminate.
Qed.

(** ** Operators and equals *)

(** The evaluating branch of [setOperator]. *)
Lemma setOperator_chain (op pending : Operator) (a : JS.number)
      (s : CalcState) :
  operator s = Some pending -> accumulator s = Some a ->
  waitingForSecond s = false ->
  setOperator op s
  = let res := compute a (current s) pending in
    mkState (JS.toString res) (Some res) (Some op) true None None.
Proof. unfold setOperator, current. now intros -> -> ->. Qed.

(** C5: operators chain from left to right.  The keys 2, add, 3,
    multiply, 4, equals show 20; and choosing an operator while another is
    pending over an accumulator, with the flag clear, evaluates the pending
    one on the accumulator and the displayed number, keeps the result as
    accumulator and display, and makes the new operator the pending one. *)
Theorem chained_operators_left_to_right :
  display (run [KDigit D2; KOp Plus; KDigit D3; KOp Times; KDigit D4;
                KEquals] initial) = "20"
  /\ accumulator (run [KDigit D2; KOp Plus; KDigit D3; KOp Times] initial)
     = Some (num 5)
  /\ forall (op pending : Operator) (a : JS.number) (s : CalcState),
       operator s = Some pending -> accumulator s = Some a ->
       waitingForSecond s = false ->
       setOperator op s
       = mkState (JS.toString (compute a (current s) pending))
                 (Some (compute a (current s) pending))
                 (Some op) true None None.
Proof.
  split; [|split].
  - vm_compute. reflexivity.
  - vm_compute. reflexivity.
  - intros op pending a s Ho Ha Hw. now apply setOperator_chain.
Qed.

(** After 2, add, 3 the key multiply evaluates the addition. *)
Lemma chained_operators_left_to_right_witness :
  let s := run [KDigit D2; KOp Plus; KDigit D3] initial in
  operator s = Some Plus /\ accumulator s = Some (num 2)
  /\ waitingForSecond s = false
  /\ setOperator Times s
     = mkState (JS.toString (compute (num 2) (current s) Plus))
               (Some (compute (num 2) (current s) Plus))
               (Some Times) true None None.
Proof.
  split; [reflexivity|]. split; [reflexivity|]. split; [reflexivity|].
  apply (proj2 (proj2 chained_operators_left_to_right) Times Plus (num 2)
           (run [KDigit D2; KOp Plus; KDigit D3] initial));
    reflexivity.
Defined.

(** The repeating branch of [equals]: taken when the first one is not. *)
Lemma equals_repeat (op : Operator) (arg : JS.number) (s : CalcState) :
  lastOp s = Some op -> lastArg s = Some arg ->
  operator s = None \/ accumulator s = None \/ waitingForSecond s = true ->
  equals s
  = let res := compute (current s) arg op in
    mkState (JS.toString res) (Some res) (operator s) (waitingForSecond s)
            (lastOp s) (lastArg s).
Proof.
  unfold equals, current. intros -> -> H.
  destruct (operator s), (accumulator s), (waitingForSecond s);
    try reflexivity.
  destruct H as [H|[H|H]]; discriminate.
Qed.

(** C6: repeat-equals.  After 5, add, 3, equals the display is 8, and each
    further equals adds 3 again: 11, then 14; the repeat leaves the last
    operator and the last operand as they are. *)
Theorem repeat_equals :
  (let s := run [KDigit D5; KOp Plus; KDigit D3; KEquals] initial in
   display s = "8"
   /\ lastOp s = Some Plus /\ lastArg s = Some (num 3)
   /\ display (equals s) = "11"
   /\ display (equals (equals s)) = "14")
  /\ forall (op : Operator) (arg : JS.number) (s : CalcState),
       lastOp s = Some op -> lastArg s = Some arg ->
       operator s = None \/ accumulator s = None
       \/ waitingForSecond s = true ->
       display (equals s) = JS.toString (compute (current s) arg op)
       /\ accumulator (equals s) = Some (compute (current s) arg op)
       /\ lastOp (equals s) = lastOp s
       /\ lastArg (equals s) = lastArg s
       /\ operator (equals s) = operator s
       /\ waitingForSecond (equals s) = waitingForSecond s.
Proof.
  split.
  - vm_compute. repeat split; reflexivity.
  - intros op arg s Hop Harg H.
    rewrite (equals_repeat op arg s Hop Harg H). simpl.
    repeat split; reflexivity.
Qed.

(** The second equals after 5, add, 3, equals. *)
Lemma repeat_equals_witness :
  let s := run [KDigit D5; KOp Plus; KDigit D3; KEquals] initial in
  lastOp s = Some Plus /\ lastArg s = Some (num 3)
  /\ operator s = None
  /\ display (equals s) = JS.toString (compute (current s) (num 3) Plus)
  /\ lastOp (equals s) = lastOp s
  /\ lastArg (equals s) = lastArg s.
Proof.
  split; [reflexivity|]. split; [reflexivity|]. split; [reflexivity|].
  destruct (proj2 repeat_equals Plus (num 3)
              (run [KDigit D5; KOp Plus; KDigit D3; KEquals] initial)
              eq_refl eq_refl (or_introl eq_refl))
    as (Hd & _ & Hop & Harg & _).
  exact (conj Hd (conj Hop Harg)).
Defined.

(** C8: an operator followed at once by equals.  [setOperator] sets the
    flag and clears the repeat pair, so neither branch of [equals] is
    taken and the state stays as [setOperator] left it. *)
Theorem operator_then_equals (op : Operator) (s : CalcState) :
  waitingForSecond (setOperator op s) = true
  /\ lastOp (setOperator op s) = None
  /\ lastArg (setOperator op s) = None
  /\ equals (setOperator op s) = setOperator op s.
Proof.
  unfold setOperator.
  destruct (operator s), (waitingForSecond s), (accumulator s);
    repeat split; reflexivity.
Qed.

(** ** Percent *)

(** C7, as the code has it: percent of a non-finite display changes
    nothing; under a pending add or subtract with an accumulator the new
    display is the product of accumulator and displayed number, divided by
    100; under a pending multiply or divide, or without a pending operator,
    it is the displayed number divided by 100; and only the display
    changes.  So 100, add, 10, percent shows 10 and 100, multiply, 10,
    percent shows 0.1. *)
Theorem percent_contextual (s : CalcState) :
  (JS.isFinite (current s) = false -> percent s = s)
  /\ (JS.isFinite (current s) = true ->
      forall (acc : JS.number) (op : Operator),
        accumulator s = Some acc -> operator s = Some op ->
        op = Plus \/ op = Minus ->
        percent s
        = withDisplay
            (JS.toString (JS.div (JS.mul acc (current s)) hundred)) s)
  /\ (JS.isFinite (current s) = true ->
      operator s = Some Times \/ operator s = Some Divide
      \/ operator s = None ->
      percent s
      = withDisplay (JS.toString (JS.div (current s) hundred)) s)
  /\ display (run [KDigit D1; KDigit D0; KDigit D0; KOp Plus;
                   KDigit D1; KDigit D0; KPercent] initial) = "10"
  /\ display (run [KDigit D1; KDigit D0; KDigit D0; KOp Times;
                   KDigit D1; KDigit D0; KPercent] initial) = "0.1".
Proof.
  unfold percent, current.
  split; [|split; [|split; [|split]]].
  - now intros ->.
  - intros -> acc op -> -> [->| ->]; reflexivity.
  - intros -> [->|[->| ->]]; destruct (accumulator s); reflexivity.
  - vm_compute. reflexivity.
  - vm_compute. reflexivity.
Qed.

(** 100, add, 10 and then percent: the display becomes (100 * 10) / 100. *)
Lemma percent_contextual_witness :
  let s := run [KDigit D1; KDigit D0; KDigit D0; KOp Plus;
                KDigit D1; KDigit D0] initial in
  JS.isFinite (current s) = true
  /\ percent s
     = withDisplay
         (JS.toString (JS.div (JS.mul (num 100) (current s)) hundred)) s.
Proof.
  split; [reflexivity|].
  apply (proj1 (proj2 (percent_contextual
                         (run [KDigit D1; KDigit D0; KDigit D0; KOp Plus;
                               KDigit D1; KDigit D0] initial)))
           eq_refl (num 100) Plus eq_refl eq_refl (or_introl eq_refl)).
Defined.

(** C7 as stated multiplies the accumulator by the hundredth of the
    displayed number.  After 3, add, 10 that product shows as
    0.30000000000000004, and the code shows 0.3. *)
Lemma percent_divides_the_product :
  let s := run [KDigit D3; KOp Plus; KDigit D1; KDigit D0] initial in
  accumulator s = Some (num 3)
  /\ operator s = Some Plus
  /\ current s = num 10
  /\ JS.toString (JS.mul (num 3) (JS.div (num 10) hundred))
     = "0.30000000000000004"
  /\ display (percent s) = "0.3"
  /\ display (percent s)
     <> JS.toString (JS.mul (num 3) (JS.div (current s) hundred)).
Proof.
  vm_compute. repeat split; try reflexivity. discriminate.
Qed.

(** ** The decimal point *)

Lemma includes_app_point (s : string) : Str.includes "." (s ++ ".") = true.
Proof.
  induction s as [|a s IH]; simpl; [reflexivity|].
  now destruct (Ascii.eqb a ".").
Qed.

Lemma inputDot_idempotent (s : CalcState) :
  inputDot (inputDot s) = inputDot s.
Proof.
  unfold inputDot at 2 3.
  destruct (waitingForSecond s) eqn:Hw; [reflexivity|].
  destruct (Str.includes "." (display s)) eqn:Hp.
  - unfold inputDot. now rewrite Hw, Hp.
  - unfold inputDot. simpl. now rewrite Hw, includes_app_point.
Qed.

(** C9: whatever the keys pressed from the initial state, the display
    holds at most one decimal point; and a second [inputDot] changes
    nothing after the first. *)
Theorem at_most_one_decimal_point :
  (forall keys : list Key,
     (Str.count "." (display (run keys initial)) <= 1)%nat)
  /\ (forall s : CalcState,
        display (inputDot (inputDot s)) = display (inputDot s)).
Proof.
  split.
  - intros keys. apply reachable_points, run_reachable. constructor.
  - intros s. now rewrite inputDot_idempotent.
Qed.

(** ** Clear-entry and the repeat pair *)

(** C10: the clear-entry changes the display and the flag and nothing
    else; with no operator pending, equals after it applies the last
    operator to 0 and the last operand. *)
Theorem clear_entry_keeps_repeat_pair (s : CalcState) :
  (dirty s = true -> onClear s = clearEntry s)
  /\ display (clearEntry s) = "0"
  /\ waitingForSecond (clearEntry s) = isSet (operator s)
  /\ accumulator (clearEntry s) = accumulator s
  /\ operator (clearEntry s) = operator s
  /\ lastOp (clearEntry s) = lastOp s
  /\ lastArg (clearEntry s) = lastArg s
  /\ forall (op : Operator) (arg : JS.number),
       operator s = None -> lastOp s = Some op -> lastArg s = Some arg ->
       equals (clearEntry s)
       = mkState (JS.toString (compute (num 0) arg op))
                 (Some (compute (num 0) arg op))
                 None false (Some op) (Some arg).
Proof.
  split; [unfold onClear; now intros ->|].
  split; [reflexivity|].
  split; [simpl; now destruct (operator s)|].
  do 4 (split; [reflexivity|]).
  intros op arg Ho Hop Harg.
  unfold equals, clearEntry. simpl. now rewrite Ho, Hop, Harg.
Qed.

(** After 5, add, 3, equals, 9 the display is 89; clear and equals then
    show 0 + 3. *)
Lemma clear_entry_keeps_repeat_pair_witness :
  let s := run [KDigit D5; KOp Plus; KDigit D3; KEquals; KDigit D9]
               initial in
  dirty s = true /\ operator s = None
  /\ lastOp s = Some Plus /\ lastArg s = Some (num 3)
  /\ onClear s = clearEntry s
  /\ equals (clearEntry s)
     = mkState "3" (Some (num 3)) None false (Some Plus) (Some (num 3)).
Proof.
  do 4 (split; [reflexivity|]).
  destruct (clear_entry_keeps_repeat_pair
              (run [KDigit D5; KOp Plus; KDigit D3; KEquals; KDigit D9]
                   initial))
    as (Hc & _ & _ & _ & _ & _ & _ & He).
  exact (conj (Hc eq_refl) (He Plus (num 3) eq_refl eq_refl eq_refl)).
Defined.

(** * Further properties of the handlers *)

(** A property kept by every key holds after every sequence of keys. *)
Lemma run_invariant (I : CalcState -> Prop) :
  (forall k s, I s -> I (press k s)) ->
  forall keys s, I s -> I (run keys s).
Proof.
  intros Hstep keys. induction keys as [|k keys IH]; intros s Hs; simpl.
  - exact Hs.
  - apply IH, Hstep, Hs.
Qed.

Ltac unfold_handlers :=
  unfold inputDigit, inputDot, toggleSign, percent, setOperator, equals,
    onClear, clearEntry, clearAll, dirty, withDisplay, withFreshDisplay,
    initial; simpl.

(** ** The optional fields *)

Lemma press_settled (k : Key) (s : CalcState) :
  settled s -> settled (press k s).
Proof.
  unfold settled. destruct s as [dsp acc o w lo la]. simpl.
  intros (Hw & Ho & Hpair & Hlast).
  destruct k as [d| | | |op| |]; simpl; unfold_handlers;
    split_ifs; simpl; repeat split; intros; auto;
    try congruence; try (apply Hlast; assumption).
Qed.

(** Whatever the keys pressed from the initial state: the flag is only set
    under a pending operator, a pending operator always comes with an
    accumulator, the last operator and the last operand are set or unset
    together, and while they are set an accumulator exists and no operator
    is pending. *)
Theorem optional_fields_hang_together (keys : list Key) :
  let s := run keys initial in
  (waitingForSecond s = true -> isSet (operator s) = true)
  /\ (isSet (operator s) = true -> isSet (accumulator s) = true)
  /\ isSet (lastOp s) = isSet (lastArg s)
  /\ (isSet (lastOp s) = true ->
      isSet (accumulator s) = true /\ operator s = None).
Proof.
  apply (run_invariant settled press_settled keys initial).
  unfold settled. simpl. repeat split; intros; congruence.
Qed.

(** After 5, add, 3, equals the repeat pair is set, and with it the
    accumulator, while no operator is pending. *)
Lemma optional_fields_hang_together_witness :
  let s := run [KDigit D5; KOp Plus; KDigit D3; KEquals] initial in
  isSet (lastOp s) = true
  /\ isSet (accumulator s) = true /\ operator s = None.
Proof.
  split; [reflexivity|].
  exact (proj2 (proj2 (proj2
           (optional_fields_hang_together
              [KDigit D5; KOp Plus; KDigit D3; KEquals]))) eq_refl).
Defined.

(** ** The accumulator and the label of the clear button *)

Lemma press_keeps_accumulator (k : Key) (s : CalcState) :
  isSet (accumulator s) = true -> isSet (accumulator (press k s)) = true.
Proof.
  destruct s as [dsp acc o w lo la]. simpl. intros Ha.
  destruct acc as [a|]; [clear Ha | discriminate].
  destruct k as [d| | | |op| |]; simpl; unfold_handlers;
    split_ifs; simpl; try reflexivity.
  all: rewrite ?orb_true_r in *; simpl in *; congruence.
Qed.

(** No key removes an accumulator: once one exists it exists after every
    further sequence of keys, the state stays dirty, and the clear button
    keeps the label C. *)
Theorem accumulator_never_cleared (keys : list Key) (s : CalcState) :
  isSet (accumulator s) = true ->
  isSet (accumulator (run keys s)) = true
  /\ dirty (run keys s) = true
  /\ clearLabel (run keys s) = "C"
  /\ run keys s <> initial.
Proof.
  intros Ha.
  assert (H : isSet (accumulator (run keys s)) = true).
  { revert Ha. apply (run_invariant
                        (fun t => isSet (accumulator t) = true)
                        press_keeps_accumulator). }
  assert (Hd : dirty (run keys s) = true).
  { unfold dirty. rewrite H. now rewrite orb_true_r. }
  repeat split; auto.
  - unfold clearLabel. now rewrite Hd.
  - intros E. rewrite E in H. discriminate.
Qed.

(** After 5 and add, three clears and an equals leave the accumulator. *)
Lemma accumulator_never_cleared_witness :
  let s := run [KDigit D5; KOp Plus] initial in
  isSet (accumulator s) = true
  /\ isSet (accumulator (run [KClear; KClear; KClear; KEquals] s)) = true
  /\ clearLabel (run [KClear; KClear; KClear; KEquals] s) = "C".
Proof.
  split; [reflexivity|].
  destruct (accumulator_never_cleared [KClear; KClear; KClear; KEquals]
              (run [KDigit D5; KOp Plus] initial) eq_refl)
    as (Ha & _ & Hl & _).
  exact (conj Ha Hl).
Defined.

(** The clear button shows AC in the initial state and in no other state
    the keys lead to; there [onClear] changes nothing. *)
Theorem label_AC_only_in_initial_state (keys : list Key) :
  (clearLabel (run keys initial) = "AC" <-> run keys initial = initial)
  /\ (clearLabel (run keys initial) = "AC" ->
      onClear (run keys initial) = run keys initial).
Proof.
  assert (Hr : reachable (run keys initial))
    by (apply run_reachable; constructor).
  assert (H : clearLabel (run keys initial) = "AC" ->
              run keys initial = initial).
  { unfold clearLabel. intros Hl.
    destruct (dirty (run keys initial)) eqn:Hd; [discriminate|].
    now apply clearAll_only_on_initial. }
  split; [split|].
  - exact H.
  - now intros ->.
  - intros Hl. now rewrite (H Hl).
Qed.

(** With no key pressed the label is AC. *)
Lemma label_AC_only_in_initial_state_witness :
  clearLabel (run [] initial) = "AC"
  /\ onClear (run [] initial) = run [] initial.
Proof.
  split; [reflexivity|].
  exact (proj2 (label_AC_only_in_initial_state []) eq_refl).
Defined.

(** ** The active operator *)

Lemma Operator_eqb_eq (a b : Operator) : Operator_eqb a b = true <-> a = b.
Proof. destruct a, b; simpl; split; congruence. Qed.

(** Percent and the sign toggle change the display only. *)
Lemma percent_frame (s : CalcState) :
  percent s = withDisplay (display (percent s)) s.
Proof.
  destruct s as [dsp acc o w lo la]. unfold percent, withDisplay. simpl.
  destruct (negb _); [reflexivity|].
  destruct acc, o as [[]|]; reflexivity.
Qed.

Lemma toggleSign_frame (s : CalcState) :
  toggleSign s = withDisplay (display (toggleSign s)) s.
Proof.
  destruct s as [dsp acc o w lo la]. unfold toggleSign, withDisplay. simpl.
  destruct (String.eqb _ _); [reflexivity|].
  destruct (Str.startsWithMinus _); reflexivity.
Qed.

(** The operator button shown as active.  After an operator key it is
    that operator and no other; a digit or the decimal point switches it
    off; equals, percent and the sign toggle leave it as it is; and a
    clear on a dirty state switches the pending operator back on, also
    when its second operand was being typed. *)
Theorem active_operator (op op' : Operator) (d : Digit) (s : CalcState) :
  opActive (setOperator op s) op' = Operator_eqb op op'
  /\ opActive (inputDigit (digitLabel d) s) op' = false
  /\ opActive (inputDot s) op' = false
  /\ opActive (equals s) op' = opActive s op'
  /\ opActive (percent s) op' = opActive s op'
  /\ opActive (toggleSign s) op' = opActive s op'
  /\ (dirty s = true ->
      opActive (onClear s) op'
      = match operator s with
        | Some o => Operator_eqb o op'
        | None => false
        end)
  /\ (opActive s op = true -> opActive s op' = true -> op = op').
Proof.
  split; [|split; [|split; [|split; [|split; [|split; [|split]]]]]].
  - unfold setOperator, opActive.
    destruct (operator s), (waitingForSecond s), (accumulator s); simpl;
      apply andb_true_r.
  - unfold inputDigit, opActive.
    destruct (waitingForSecond s) eqn:Hw.
    + simpl. destruct (operator s); [apply andb_false_r | reflexivity].
    + destruct (String.eqb _ _); [|destruct (Nat.leb _ _)]; simpl;
        rewrite Hw; destruct (operator s);
        try apply andb_false_r; reflexivity.
  - unfold inputDot, opActive.
    destruct (waitingForSecond s) eqn:Hw; simpl.
    + destruct (operator s); [apply andb_false_r | reflexivity].
    + destruct (Str.includes _ _); simpl;
        rewrite Hw; destruct (operator s);
        try apply andb_false_r; reflexivity.
  - unfold equals, opActive. destruct s as [dsp acc o w lo la]. simpl.
    destruct o, acc, w, lo, la; simpl; rewrite ?andb_false_r; reflexivity.
  - now rewrite percent_frame.
  - now rewrite toggleSign_frame.
  - unfold onClear, opActive. intros ->. simpl.
    destruct (operator s); simpl; [apply andb_true_r | reflexivity].
  - unfold opActive. destruct (operator s) as [o|]; [|discriminate].
    intros H1 H2. apply andb_prop in H1 as [H1 _], H2 as [H2 _].
    apply Operator_eqb_eq in H1, H2. congruence.
Qed.

(** After 5, add, 3 no operator is active; clear makes add active again. *)
Lemma active_operator_witness :
  let s := run [KDigit D5; KOp Plus; KDigit D3] initial in
  dirty s = true /\ opActive s Plus = false
  /\ opActive (onClear s) Plus = true.
Proof.
  split; [reflexivity|]. split; [reflexivity|].
  exact (proj1 (proj2 (proj2 (proj2 (proj2 (proj2 (proj2
           (active_operator Plus Plus D0
              (run [KDigit D5; KOp Plus; KDigit D3] initial))))))))
           eq_refl).
Defined.

(** ** Typing a number *)

Lemma append_empty_r (s : string) : s ++ EmptyString = s.
Proof. induction s as [|a s IH]; simpl; [reflexivity | now rewrite IH]. Qed.

Lemma append_assoc (s t u : string) : (s ++ t) ++ u = s ++ (t ++ u).
Proof. induction s as [|a s IH]; simpl; [reflexivity | now rewrite IH]. Qed.

Lemma length_append (s t : string) :
  String.length (s ++ t) = (String.length s + String.length t)%nat.
Proof. induction s as [|a s IH]; simpl; [reflexivity | now rewrite IH]. Qed.

Lemma stripCommas_append (s t : string) :
  Str.stripCommas (s ++ t) = Str.stripCommas s ++ Str.stripCommas t.
Proof.
  induction s as [|a s IH]; simpl; [reflexivity|].
  destruct (Ascii.eqb a ","); simpl; now rewrite IH.
Qed.

(** A string without commas is left as it is. *)
Lemma stripCommas_id (P : ascii -> bool) (s : string) :
  P ","%char = false -> Str.all P s = true -> Str.stripCommas s = s.
Proof.
  intros Hc. induction s as [|a s IH]; simpl; [reflexivity|].
  intros H. apply andb_prop in H as [Ha Hs].
  destruct (Ascii.eqb_spec a ",") as [->|_]; [congruence|].
  now rewrite IH.
Qed.

Lemma labels_digits (ds : list Digit) :
  Str.all Str.isDigit (labels ds) = true.
Proof.
  induction ds as [|d ds IH]; simpl; [reflexivity|].
  now rewrite all_app, digitLabel_digits.
Qed.

Lemma stripCommas_labels (ds : list Digit) :
  Str.stripCommas (labels ds) = labels ds.
Proof.
  apply (stripCommas_id Str.isDigit); [reflexivity | apply labels_digits].
Qed.

Lemma withDisplay_same (s : CalcState) : withDisplay (display s) s = s.
Proof. now destruct s. Qed.

Lemma run_cons (k : Key) (keys : list Key) (s : CalcState) :
  run (k :: keys) s = run keys (press k s).
Proof. reflexivity. Qed.

Lemma digitLabel_length (d : Digit) : String.length (digitLabel d) = 1%nat.
Proof. now destruct d. Qed.

(** On a display that is being typed, a run of digit keys appends digits
    until the display has twelve characters and drops the others. *)
Lemma digits_extend_display (ds : list Digit) :
  forall s : CalcState,
    waitingForSecond s = false ->
    display s <> EmptyString ->
    display s <> "0" ->
    Str.stripCommas (display s) = display s ->
    run (map KDigit ds) s
    = withDisplay
        (display s
         ++ labels (firstn (12 - String.length (display s)) ds)) s.
Proof.
  induction ds as [|d ds IH]; intros s Hw Hne Hz Hs.
  - rewrite firstn_nil. cbn [map run fold_left labels].
    now rewrite append_empty_r, withDisplay_same.
  - rewrite map_cons, run_cons. cbn [press]. unfold inputDigit.
    rewrite Hw, Hs.
    apply String.eqb_neq in Hz as Hz'. rewrite Hz'.
    destruct (Nat.leb_spec 12 (String.length (display s))) as [Hlen|Hlen].
    + rewrite (IH s Hw Hne Hz Hs).
      replace (12 - String.length (display s))%nat with O by lia.
      reflexivity.
    + pose proof (digitLabel_length d) as Hd.
      assert (Hlen' : String.length (display s ++ digitLabel d)
                      = S (String.length (display s)))
        by (rewrite length_append, Hd; lia).
      rewrite IH; unfold withDisplay; cbn [display waitingForSecond].
      * rewrite Hlen', append_assoc.
        replace (12 - String.length (display s))%nat
          with (S (12 - S (String.length (display s))))%nat by lia.
        reflexivity.
      * exact Hw.
      * intros E. rewrite E in Hlen'. discriminate.
      * intros E. rewrite E in Hlen'. cbn [String.length] in Hlen'.
        destruct (display s); [now apply Hne | discriminate].
      * rewrite stripCommas_append, Hs.
        f_equal. now destruct d.
Qed.

Lemma withDisplay_twice (a b : string) (s : CalcState) :
  withDisplay a (withDisplay b s) = withDisplay a s.
Proof. reflexivity. Qed.

Lemma withDisplay_settled_flag (a : string) (s : CalcState) :
  waitingForSecond s = false -> withDisplay a s = withFreshDisplay a s.
Proof. unfold withDisplay, withFreshDisplay. now intros ->. Qed.

Lemma entryText_nonzero (d : Digit) (ds : list Digit) :
  d <> D0 -> entryText (d :: ds) = digitLabel d ++ labels (firstn 11 ds).
Proof. destruct d; intros H; try reflexivity. now elim H. Qed.

Lemma entry_after_nonzero (d : Digit) (ds : list Digit) (s : CalcState) :
  d <> D0 -> waitingForSecond s = false -> display s = digitLabel d ->
  run (map KDigit ds) s = withDisplay (entryText (d :: ds)) s.
Proof.
  intros Hd Hw Hdisp.
  rewrite digits_extend_display; rewrite ?Hdisp; auto.
  - now rewrite digitLabel_length, entryText_nonzero.
  - now destruct d.
  - destruct d; try discriminate. now elim Hd.
  - now destruct d.
Qed.

Lemma entry_on_zero (ds : list Digit) :
  forall s : CalcState,
    waitingForSecond s = false -> display s = "0" ->
    run (map KDigit ds) s = withDisplay (entryText ds) s.
Proof.
  induction ds as [|d ds IH]; intros s Hw Hz.
  - cbn. now rewrite <- Hz, withDisplay_same.
  - rewrite map_cons, run_cons. cbn [press]. unfold inputDigit.
    rewrite Hw, Hz. cbn [String.eqb Ascii.eqb Bool.eqb].
    destruct (match d with D0 => true | _ => false end) eqn:E.
    + destruct d; try discriminate.
      rewrite IH by (try exact Hw; reflexivity). reflexivity.
    + rewrite (entry_after_nonzero d)
        by (try exact Hw; try reflexivity; now destruct d).
      reflexivity.
Qed.

(** The display after digits typed on a fresh display. *)
Lemma digits_on_fresh_display (ds : list Digit) (s : CalcState) :
  fresh s = true -> ds <> [] ->
  run (map KDigit ds) s = withFreshDisplay (entryText ds) s.
Proof.
  intros Hf Hds. destruct ds as [|d ds]; [now elim Hds|].
  unfold fresh in Hf. destruct (waitingForSecond s) eqn:Hw.
  - rewrite map_cons, run_cons. cbn [press]. unfold inputDigit. rewrite Hw.
    destruct (match d with D0 => true | _ => false end) eqn:E.
    + destruct d; try discriminate.
      rewrite entry_on_zero by reflexivity. reflexivity.
    + rewrite (entry_after_nonzero d)
        by (try reflexivity; now destruct d).
      reflexivity.
  - simpl in Hf. apply String.eqb_eq in Hf.
    rewrite entry_on_zero by assumption.
    now apply withDisplay_settled_flag.
Qed.

(** Digits typed on a fresh display, that is under the flag or on a
    display of [0]: the leading zeros collapse, the first twelve of the
    remaining digits make the display and the others are dropped; nothing
    else changes but the flag, which is cleared. *)
Theorem typed_digits_make_the_display (ds : list Digit) (s : CalcState) :
  fresh s = true -> ds <> [] ->
  run (map KDigit ds) s = withFreshDisplay (entryText ds) s
  /\ (String.length (display (run (map KDigit ds) s)) <= 12)%nat.
Proof.
  intros Hf Hds. rewrite (digits_on_fresh_display ds s Hf Hds).
  split; [reflexivity|]. cbn [display withFreshDisplay].
  unfold entryText, keptDigits.
  assert (H : forall l, String.length (labels l) = List.length l).
  { induction l as [|d l IH]; [reflexivity|]. cbn [labels List.length].
    now rewrite length_append, digitLabel_length, IH. }
  pose proof (firstn_le_length 12 (dropZeros ds)) as Hle.
  destruct (firstn 12 (dropZeros ds)) as [|d l] eqn:E.
  - simpl. lia.
  - now rewrite H.
Qed.

(** After 5 and add, the keys 0, 0, 7, 2 show 72. *)
Lemma typed_digits_make_the_display_witness :
  let s := run [KDigit D5; KOp Plus] initial in
  fresh s = true
  /\ run (map KDigit [D0; D0; D7; D2]) s = withFreshDisplay "72" s.
Proof.
  split; [reflexivity|].
  apply (typed_digits_make_the_display [D0; D0; D7; D2]
           (run [KDigit D5; KOp Plus] initial)); [reflexivity|discriminate].
Defined.

(** ** The number a typed display reads as *)

Lemma digit_not_white (a : ascii) :
  Str.isDigit a = true -> JS.isWhite a = false.
Proof.
  unfold Str.isDigit, JS.isWhite. intros H.
  apply andb_prop in H as [H1 H2]. apply Nat.leb_le in H1, H2.
  apply orb_false_iff. split.
  - apply andb_false_iff. right. apply Nat.leb_gt. lia.
  - apply Nat.eqb_neq. lia.
Qed.

(** Nothing is trimmed from a string without white space. *)
Lemma trim_id (P : ascii -> bool) (s : string) :
  (forall a, P a = true -> JS.isWhite a = false) ->
  Str.all P s = true -> JS.trimEnd (JS.trimStart s) = s.
Proof.
  intros HP Hs.
  assert (Hstart : JS.trimStart s = s).
  { destruct s as [|a s]; [reflexivity|]. simpl in *.
    apply andb_prop in Hs as [Ha _]. now rewrite (HP a Ha). }
  rewrite Hstart. clear Hstart.
  induction s as [|a s IH]; [reflexivity|].
  simpl in *. apply andb_prop in Hs as [Ha Hs].
  rewrite (IH Hs), (HP a Ha). now destruct s.
Qed.

(** An unsigned decimal text is read by [readDecimal]. *)
Lemma toNumber_unsigned (t : string) :
  JS.trimEnd (JS.trimStart t) = t -> JS.radixPrefix t = None ->
  unsignedText t = true ->
  JS.toNumber t = JS.readDecimal false t.
Proof.
  intros Htrim Hradix Hu. unfold JS.toNumber. rewrite Htrim.
  destruct t as [|c r]; [discriminate|]. rewrite Hradix.
  simpl in Hu. apply negb_true_iff, orb_false_iff in Hu as [-> ->].
  reflexivity.
Qed.

Lemma readDigits_step (c : ascii) (v acc : Z) (cnt : nat) (s : string) :
  JS.digitValue 10 c = Some v ->
  JS.readDigits 10 acc cnt (String c s)
  = JS.readDigits 10 (acc * 10 + v) (S cnt) s.
Proof. simpl. now intros ->. Qed.

Lemma readDigits_labels (l : list Digit) :
  forall (acc : Z) (cnt : nat),
    JS.readDigits 10 acc cnt (labels l)
    = (fold_left (fun a d => a * 10 + digitZ d) l acc,
       (cnt + List.length l)%nat, EmptyString).
Proof.
  induction l as [|d l IH]; intros acc cnt.
  - cbn. now rewrite Nat.add_0_r.
  - cbn [List.length fold_left]. rewrite Nat.add_succ_r, <- Nat.add_succ_l.
    rewrite <- IH.
    destruct d; cbn [labels digitLabel append];
      now apply readDigits_step.
Qed.

Lemma digitsZ_nonneg (l : list Digit) : 0 <= digitsZ l.
Proof.
  unfold digitsZ.
  assert (H : forall acc, 0 <= acc ->
                0 <= fold_left (fun a d => a * 10 + digitZ d) l acc).
  { induction l as [|d l IH]; intros acc Hacc; simpl; [exact Hacc|].
    apply IH. destruct d; simpl; lia. }
  apply H. lia.
Qed.

(** A run of digits that does not start with 0 reads as its integer. *)
Lemma toNumber_labels (d : Digit) (l : list Digit) :
  d <> D0 -> JS.toNumber (labels (d :: l)) = JS.ofZ (digitsZ (d :: l)).
Proof.
  intros Hd.
  rewrite toNumber_unsigned.
  - unfold JS.readDecimal.
    assert (E : String.eqb (labels (d :: l)) "Infinity" = false)
      by now destruct d.
    rewrite E, readDigits_labels. cbn [List.length Nat.add Nat.eqb].
    fold (digitsZ (d :: l)).
    cbn [JS.readExponent Z.of_nat Z.sub Z.opp Z.add].
    unfold JS.ofDecimal, JS.ofZ. cbn [Z.leb Z.compare Z.pow Z.pow_pos].
    pose proof (digitsZ_nonneg (d :: l)) as Hpos.
    rewrite Z.mul_1_r, Z.abs_eq by exact Hpos.
    apply Z.ltb_ge in Hpos. now rewrite Hpos.
  - apply (trim_id Str.isDigit); [apply digit_not_white | apply labels_digits].
  - destruct d; try reflexivity. now elim Hd.
  - now destruct d.
Qed.

Lemma dropZeros_head (ds : list Digit) (d : Digit) (l : list Digit) :
  dropZeros ds = d :: l -> d <> D0.
Proof.
  induction ds as [|a ds IH]; simpl; [discriminate|].
  destruct a; try (intros E; injection E as <- _; discriminate).
  exact IH.
Qed.

Lemma keptDigits_head (ds : list Digit) (d : Digit) (l : list Digit) :
  keptDigits ds = d :: l -> d <> D0.
Proof.
  unfold keptDigits. destruct (dropZeros ds) as [|a r] eqn:E;
    [discriminate|].
  cbn [firstn]. intros H. injection H as <- _.
  exact (dropZeros_head ds a r E).
Qed.

(** The number read from a display typed on a fresh display is the integer
    of the digits kept: leading zeros do not count and digits after the
    twelfth are not part of it. *)
Theorem typed_digits_read_as_integer (ds : list Digit) (s : CalcState) :
  fresh s = true -> ds <> [] ->
  current (run (map KDigit ds) s) = JS.ofZ (digitsZ (keptDigits ds)).
Proof.
  intros Hf Hds. rewrite (digits_on_fresh_display ds s Hf Hds).
  unfold current. cbn [display withFreshDisplay]. unfold entryText.
  destruct (keptDigits ds) as [|d l] eqn:E; [reflexivity|].
  rewrite stripCommas_labels.
  apply toNumber_labels. exact (keptDigits_head ds d l E).
Qed.

(** The keys 0, 4, 2 from the initial state read as 42. *)
Lemma typed_digits_read_as_integer_witness :
  fresh initial = true
  /\ current (run (map KDigit [D0; D4; D2]) initial) = JS.ofZ 42.
Proof.
  split; [reflexivity|].
  apply (typed_digits_read_as_integer [D0; D4; D2] initial);
    [reflexivity | discriminate].
Defined.

(** ** The sign toggle *)

Lemma displayChar_not_white (a : ascii) :
  displayChar a = true -> JS.isWhite a = false.
Proof.
  destruct a as [[] [] [] [] [] [] [] []]; intros H;
    try reflexivity; discriminate.
Qed.

Lemma radixPrefix_displayChar (t : string) :
  Str.all displayChar t = true -> JS.radixPrefix t = None.
Proof.
  destruct t as [|a [|c r]]; [reflexivity| |].
  - now destruct a as [[] [] [] [] [] [] [] []].
  - intros H. cbn [Str.all] in H.
    apply andb_prop in H as [_ H]. apply andb_prop in H as [Hc _].
    destruct a as [[] [] [] [] [] [] [] []]; try reflexivity.
    destruct c as [[] [] [] [] [] [] [] []]; try reflexivity; discriminate.
Qed.

Lemma binary_round_aux_sign (q e : Z) (l : location) :
  binary_round_aux JS.prec JS.emax true q e l
  = SFopp (binary_round_aux JS.prec JS.emax false q e l).
Proof.
  unfold binary_round_aux.
  destruct (shr_fexp _ _ q e l) as [mrs e'].
  destruct (shr_fexp _ _ _ e' loc_Exact) as [mrs' e''].
  destruct (shr_m mrs'); [reflexivity| |reflexivity].
  now destruct (e'' <=? _).
Qed.

Lemma ofDecimal_sign (m p : Z) :
  JS.ofDecimal true m p = SFopp (JS.ofDecimal false m p).
Proof.
  unfold JS.ofDecimal, JS.ofRatio.
  destruct (0 <=? p);
    destruct (SFdiv_core_binary _ _ _ _ _ _) as [[q e] l];
    apply binary_round_aux_sign.
Qed.

(** A minus sign in front of a decimal text negates the number read. *)
Lemma readDecimal_sign (x : string) :
  JS.readDecimal true x = SFopp (JS.readDecimal false x).
Proof.
  unfold JS.readDecimal.
  destruct (String.eqb x "Infinity"); [reflexivity|].
  destruct (JS.readDigits 10 0 0 x) as [[i ni] r1].
  destruct (match r1 with
            | String "." r => JS.readDigits 10 i 0 r
            | _ => (i, O, r1)
            end) as [[m nf] r2].
  destruct (ni + nf =? 0)%nat; [reflexivity|].
  destruct (JS.readExponent r2); [apply ofDecimal_sign | reflexivity].
Qed.

Lemma SFopp_involutive (x : JS.number) : SFopp (SFopp x) = x.
Proof. destruct x as [s|s| |s m e]; simpl; now rewrite ?negb_involutive. Qed.

Lemma toNumber_displayChars (t : string) :
  Str.all displayChar t = true -> unsignedText t = true ->
  JS.toNumber t = JS.readDecimal false t.
Proof.
  intros Hc Hu. apply toNumber_unsigned; auto.
  - now apply (trim_id displayChar), Hc; apply displayChar_not_white.
  - now apply radixPrefix_displayChar.
Qed.

Lemma toNumber_minus (t : string) :
  Str.all displayChar t = true ->
  JS.toNumber (String "-" t) = JS.readDecimal true t.
Proof.
  intros Hc. unfold JS.toNumber.
  rewrite (trim_id displayChar); [reflexivity| |].
  - apply displayChar_not_white.
  - cbn [Str.all]. now rewrite Hc.
Qed.

Lemma startsWithMinus_inv (t : string) :
  Str.startsWithMinus t = true -> t = String "-" (Str.slice1 t).
Proof.
  destruct t as [|a t]; simpl; [discriminate|].
  now intros ->%Ascii.eqb_eq.
Qed.

(** Toggling the sign negates the number the display reads as, when the
    display holds display characters, is not [0], and is an unsigned
    numeral behind at most one minus sign. *)
Theorem sign_toggle_negates (s : CalcState) :
  Str.all displayChar (display s) = true ->
  display s <> "0" ->
  unsignedText (magnitudeText (display s)) = true ->
  current (toggleSign s) = SFopp (current s).
Proof.
  intros Hc Hz Hu.
  assert (Hs : Str.stripCommas (display s) = display s)
    by now apply (stripCommas_id displayChar).
  apply String.eqb_neq in Hz.
  unfold magnitudeText in Hu.
  unfold current at 2. rewrite Hs.
  destruct (Str.startsWithMinus (display s)) eqn:Hm.
  - assert (Hc' : Str.all displayChar (Str.slice1 (display s)) = true)
      by now apply all_slice1.
    assert (E : toggleSign s = withDisplay (Str.slice1 (display s)) s)
      by (unfold toggleSign; now rewrite Hs, Hz, Hm).
    rewrite E. unfold current. cbn [display withDisplay].
    rewrite (stripCommas_id displayChar _ eq_refl Hc').
    rewrite (startsWithMinus_inv _ Hm) at 2.
    rewrite (toNumber_minus _ Hc'), readDecimal_sign, SFopp_involutive.
    now apply toNumber_displayChars.
  - assert (E : toggleSign s = withDisplay (String "-" (display s)) s)
      by (unfold toggleSign; now rewrite Hs, Hz, Hm).
    rewrite E. unfold current. cbn [display withDisplay].
    cbn [Str.stripCommas Ascii.eqb Bool.eqb]. rewrite Hs.
    rewrite (toNumber_minus _ Hc), readDecimal_sign.
    f_equal. symmetry. now apply toNumber_displayChars.
Qed.

(** The display 42 reads as 42 and after the toggle as -42. *)
Lemma sign_toggle_negates_witness :
  let s := run [KDigit D4; KDigit D2] initial in
  Str.all displayChar (display s) = true
  /\ display s <> "0"
  /\ unsignedText (magnitudeText (display s)) = true
  /\ current (toggleSign s) = SFopp (current s).
Proof.
  split; [reflexivity|]. split; [discriminate|]. split; [reflexivity|].
  apply (sign_toggle_negates (run [KDigit D4; KDigit D2] initial));
    [reflexivity | discriminate | reflexivity].
Defined.

(** Toggling the sign twice gives the state back, when the display has no
    commas and does not start with two minus signs, with one exception:
    the display [-0] becomes [0] and stays [0]. *)
Theorem sign_toggle_twice (s : CalcState) :
  Str.stripCommas (display s) = display s ->
  Str.startsWithMinus (magnitudeText (display s)) = false ->
  (display s <> "-0" -> toggleSign (toggleSign s) = s)
  /\ (display s = "-0" -> toggleSign (toggleSign s) = withDisplay "0" s).
Proof.
  intros Hs Hm. split.
  - intros Hz.
    destruct (String.eqb (display s) "0") eqn:E.
    { assert (E1 : toggleSign s = s)
        by (unfold toggleSign; now rewrite Hs, E).
      now rewrite !E1. }
    unfold magnitudeText in Hm.
    destruct (Str.startsWithMinus (display s)) eqn:Hd.
    + pose proof (startsWithMinus_inv _ Hd) as Hsplit.
      assert (Hs' : Str.stripCommas (Str.slice1 (display s))
                    = Str.slice1 (display s)).
      { rewrite Hsplit in Hs.
        cbn [Str.stripCommas Ascii.eqb Bool.eqb] in Hs.
        now injection Hs. }
      assert (E0 : String.eqb (Str.slice1 (display s)) "0" = false).
      { apply String.eqb_neq. intros E0. apply Hz.
        now rewrite Hsplit, E0. }
      assert (E1 : toggleSign s = withDisplay (Str.slice1 (display s)) s)
        by (unfold toggleSign; now rewrite Hs, E, Hd).
      rewrite E1. unfold toggleSign. cbn [display withDisplay].
      rewrite Hs', E0, Hm.
      change ("-" ++ Str.slice1 (display s))
        with (String "-" (Str.slice1 (display s))).
      rewrite withDisplay_twice, <- Hsplit. apply withDisplay_same.
    + assert (E1 : toggleSign s = withDisplay (String "-" (display s)) s)
        by (unfold toggleSign; now rewrite Hs, E, Hd).
      rewrite E1. unfold toggleSign. cbn [display withDisplay].
      cbn [Str.stripCommas Ascii.eqb Bool.eqb]. rewrite Hs.
      cbn [String.eqb Ascii.eqb Bool.eqb Str.startsWithMinus Str.slice1].
      rewrite withDisplay_twice. apply withDisplay_same.
  - intros E. unfold toggleSign. rewrite Hs, E. reflexivity.
Qed.

(** The display -42 after two toggles, and the display -0. *)
Lemma sign_toggle_twice_witness :
  let s := run [KDigit D4; KDigit D2; KSign] initial in
  Str.stripCommas (display s) = display s
  /\ Str.startsWithMinus (magnitudeText (display s)) = false
  /\ toggleSign (toggleSign s) = s.
Proof.
  split; [reflexivity|]. split; [reflexivity|].
  apply (sign_toggle_twice (run [KDigit D4; KDigit D2; KSign] initial));
    [reflexivity | reflexivity | discriminate].
Defined.

(** ** What the display holds *)

Lemma digitsOf_nonempty (z : Z) : JS.digitsOf z <> EmptyString.
Proof.
  unfold JS.digitsOf. destruct (Z.to_N z) as [|p]; [now cbn|].
  pose proof (Unsigned.to_uint_nonnil p) as H.
  cbn [N.to_uint]. destruct (Pos.to_uint p); [now elim H | ..];
    cbn [NilEmpty.string_of_uint]; discriminate.
Qed.

Lemma shortestDigits_nonempty (m : positive) (e : Z) :
  fst (JS.shortestDigits m e) <> EmptyString.
Proof.
  unfold JS.shortestDigits.
  destruct (JS.shortest _ _ _ _ _ _) as [s p].
  destruct (s =? _); simpl; [discriminate | apply digitsOf_nonempty].
Qed.

(** A string of digits that is not empty holds more than minus signs. *)
Lemma digits_hold_a_body (s : string) :
  s <> EmptyString -> Str.all Str.isDigit s = true ->
  Str.all isMinus s = false.
Proof.
  destruct s as [|a s]; [now intros H|]. intros _ H.
  cbn [Str.all] in *. apply andb_prop in H as [Ha _].
  assert (E : isMinus a = false).
  { unfold isMinus. destruct (Ascii.eqb_spec a "-") as [->|_];
      [discriminate | reflexivity]. }
  now rewrite E.
Qed.

Lemma layout_holds_a_body (digits : string) (n : Z) :
  digits <> EmptyString -> Str.all Str.isDigit digits = true ->
  Str.all isMinus (JS.layout digits n) = false.
Proof.
  intros Hne Hd. pose proof (digits_hold_a_body _ Hne Hd) as Hb.
  unfold JS.layout.
  repeat match goal with
         | |- context [if ?b then _ else _] => destruct b
         end;
    repeat rewrite all_app; rewrite ?Hb; simpl;
    rewrite ?andb_false_r; reflexivity.
Qed.

Lemma toString_holds_a_body (x : JS.number) :
  Str.all isMinus (JS.toString x) = false.
Proof.
  destruct x as [s|s| |s m e]; simpl; try reflexivity.
  - now destruct s.
  - pose proof (shortestDigits_digits m e) as Hd.
    pose proof (shortestDigits_nonempty m e) as Hne.
    destruct (JS.shortestDigits m e) as [digits n]; simpl in Hd, Hne.
    rewrite all_app, (layout_holds_a_body _ _ Hne Hd).
    apply andb_false_r.
Qed.

(** The two facts kept together: display characters only, and not only
    minus signs. *)
Lemma press_keeps_body (k : Key) (s : CalcState) :
  Str.all displayChar (display s) = true ->
  Str.all isMinus (display s) = false ->
  Str.all isMinus (display (press k s)) = false.
Proof.
  intros Hc Hb.
  assert (Hs : Str.stripCommas (display s) = display s)
    by now apply (stripCommas_id displayChar).
  destruct k as [d| | | |op| |]; simpl.
  - unfold inputDigit. split_ifs; simpl; auto.
    + now destruct d.
    + now destruct d.
    + now rewrite all_app, Hb.
  - unfold inputDot. split_ifs; simpl; auto.
    now rewrite all_app, Hb.
  - unfold toggleSign. rewrite Hs.
    destruct (String.eqb _ _); [exact Hb|].
    destruct (Str.startsWithMinus (display s)) eqn:Hm; simpl.
    + rewrite (startsWithMinus_inv _ Hm) in Hb. exact Hb.
    + exact Hb.
  - unfold percent. split_ifs; simpl; auto using toString_holds_a_body.
  - unfold setOperator. split_ifs; simpl; auto using toString_holds_a_body.
  - unfold equals. split_ifs; simpl; auto using toString_holds_a_body.
  - unfold onClear, clearEntry, clearAll. split_ifs; reflexivity.
Qed.

(** Whatever the keys pressed from the initial state, the display holds
    display characters only, so no comma: the comma stripping of the
    handlers changes nothing and the digit cap tests the whole length of
    the display.  And the display is never empty and never made of minus
    signs alone. *)
Theorem display_is_well_formed (keys : list Key) :
  let d := display (run keys initial) in
  Str.all displayChar d = true
  /\ Str.stripCommas d = d
  /\ shownLength (run keys initial) = String.length d
  /\ Str.all isMinus d = false
  /\ d <> EmptyString
  /\ d <> "-".
Proof.
  assert (H : Str.all displayChar (display (run keys initial)) = true
              /\ Str.all isMinus (display (run keys initial)) = false).
  { apply (run_invariant
             (fun s => Str.all displayChar (display s) = true
                       /\ Str.all isMinus (display s) = false)).
    - intros k s [Hc Hb]. split.
      + now apply press_chars.
      + now apply press_keeps_body.
    - split; reflexivity. }
  destruct H as [Hc Hb]. cbv zeta.
  assert (Hs : Str.stripCommas (display (run keys initial))
               = display (run keys initial))
    by now apply (stripCommas_id displayChar).
  repeat split; auto.
  - unfold shownLength. now rewrite Hs.
  - intros E. rewrite E in Hb. discriminate.
  - intros E. rewrite E in Hb. discriminate.
Qed.

(** ** Operator keys in a row *)

Lemma setOperator_flag_and_operator (op : Operator) (s : CalcState) :
  waitingForSecond (setOperator op s) = true
  /\ operator (setOperator op s) = Some op.
Proof.
  unfold setOperator.
  destruct (operator s), (waitingForSecond s), (accumulator s);
    split; reflexivity.
Qed.

(** A second operator key right after the first evaluates nothing: the
    display stays, the new operator replaces the pending one, and the
    accumulator is read from the display again.  When the first key did
    not evaluate either (no operator was pending, or the flag was set, or
    there was no accumulator), the two keys together do what the second
    alone does. *)
Theorem operator_key_twice (op1 op2 : Operator) (s : CalcState) :
  setOperator op2 (setOperator op1 s)
  = mkState (display (setOperator op1 s))
            (Some (current (setOperator op1 s))) (Some op2) true None None
  /\ (operator s = None \/ waitingForSecond s = true
      \/ accumulator s = None ->
      setOperator op2 (setOperator op1 s) = setOperator op2 s).
Proof.
  split.
  - unfold setOperator at 1. unfold current.
    destruct (setOperator_flag_and_operator op1 s) as (-> & _).
    now destruct (operator (setOperator op1 s)).
  - intros H. destruct s as [dsp acc o w lo la]. simpl in H.
    unfold setOperator. simpl.
    destruct o, w, acc; simpl; try reflexivity.
    destruct H as [H|[H|H]]; discriminate.
Qed.

(** After 5, the keys add and multiply do what multiply alone does. *)
Lemma operator_key_twice_witness :
  let s := run [KDigit D5] initial in
  operator s = None
  /\ setOperator Times (setOperator Plus s) = setOperator Times s.
Proof.
  split; [reflexivity|].
  exact (proj2 (operator_key_twice Plus Times (run [KDigit D5] initial))
           (or_introl eq_refl)).
Defined.

(** ** Before the first operator key *)

Lemma press_without_operator (k : Key) (s : CalcState) :
  isOpKey k = false ->
  s = withDisplay (display s) initial ->
  press k s = withDisplay (display (press k s)) initial.
Proof.
  intros Hk Hs. rewrite Hs. generalize (display s). intros dsp.
  destruct k as [d| | | |op| |]; try discriminate; simpl;
    unfold inputDigit, inputDot, toggleSign, percent, equals, onClear;
    simpl; split_ifs; reflexivity.
Qed.

(** As long as no operator key is pressed, only the display changes:
    there is no accumulator, no pending operator and no repeat pair;
    equals does nothing, and two clears give the initial state. *)
Theorem nothing_pending_before_an_operator (keys : list Key) :
  forallb (fun k => negb (isOpKey k)) keys = true ->
  let s := run keys initial in
  s = withDisplay (display s) initial
  /\ equals s = s
  /\ onClear (onClear s) = initial.
Proof.
  intros Hk.
  assert (H : forall t, t = withDisplay (display t) initial ->
                run keys t = withDisplay (display (run keys t)) initial).
  { induction keys as [|k keys IH]; intros t Ht; [exact Ht|].
    cbn [forallb] in Hk. apply andb_prop in Hk as [Hk1 Hk2].
    rewrite run_cons. apply (IH Hk2).
    apply press_without_operator; [now apply negb_true_iff | exact Ht]. }
  specialize (H initial eq_refl). cbv zeta.
  split; [exact H|]. rewrite H. split.
  - reflexivity.
  - now apply onClear_twice_entry_only.
Qed.

(** Digits, a point, a sign toggle, percent and equals: nothing pending. *)
Lemma nothing_pending_before_an_operator_witness :
  let keys := [KDigit D4; KDot; KDigit D2; KSign; KPercent; KEquals] in
  forallb (fun k => negb (isOpKey k)) keys = true
  /\ equals (run keys initial) = run keys initial
  /\ onClear (onClear (run keys initial)) = initial.
Proof.
  split; [reflexivity|].
  exact (proj2 (nothing_pending_before_an_operator
                  [KDigit D4; KDot; KDigit D2; KSign; KPercent; KEquals]
                  eq_refl)).
Defined.

(** ** Clear and retype *)

(** On a dirty state, clear followed by digits replaces the entry by the
    digits typed and keeps the accumulator, the pending operator and the
    repeat pair: the operand can be typed again. *)
Theorem clear_then_retype (ds : list Digit) (s : CalcState) :
  dirty s = true -> ds <> [] ->
  run (KClear :: map KDigit ds) s = withFreshDisplay (entryText ds) s.
Proof.
  intros Hd Hds. rewrite run_cons. cbn [press]. unfold onClear.
  rewrite Hd. rewrite digits_on_fresh_display; [reflexivity| |exact Hds].
  unfold fresh, clearEntry. cbn [display waitingForSecond].
  apply orb_true_r.
Qed.

(** 5, add, 3, then clear and 4: the display is 4 under the pending
    addition of 5. *)
Lemma clear_then_retype_witness :
  let s := run [KDigit D5; KOp Plus; KDigit D3] initial in
  dirty s = true
  /\ run (KClear :: map KDigit [D4]) s
     = mkState "4" (Some (num 5)) (Some Plus) false None None.
Proof.
  split; [reflexivity|].
  apply (clear_then_retype [D4]
           (run [KDigit D5; KOp Plus; KDigit D3] initial));
    [reflexivity | discriminate].
Defined.

(** ** Typing a decimal number *)

Lemma includes_digits (s : string) :
  Str.all Str.isDigit s = true -> Str.includes "." s = false.
Proof.
  induction s as [|a s IH]; simpl; [reflexivity|].
  intros H. apply andb_prop in H as [Ha Hs].
  destruct (Ascii.eqb_spec a ".") as [->|_]; [discriminate | now apply IH].
Qed.

Lemma entryText_digits (ds : list Digit) :
  Str.all Str.isDigit (entryText ds) = true.
Proof.
  unfold entryText. destruct (keptDigits ds); [reflexivity|].
  apply labels_digits.
Qed.

Lemma entryText_nonempty (ds : list Digit) : entryText ds <> EmptyString.
Proof.
  unfold entryText. destruct (keptDigits ds) as [|d l]; [discriminate|].
  now destruct d.
Qed.

(** The display after the point on a fresh display or after typed
    digits. *)
Lemma point_after_digits (ds : list Digit) (s : CalcState) :
  fresh s = true ->
  run (map KDigit ds ++ [KDot]) s
  = withFreshDisplay (wholeText ds ++ ".") s.
Proof.
  intros Hf. rewrite run_app. cbn [run fold_left press].
  destruct ds as [|d ds].
  - cbn [map run fold_left wholeText]. unfold inputDot, fresh in *.
    destruct s as [dsp acc o w lo la]. simpl in *.
    destruct w; [reflexivity|].
    simpl in Hf. apply String.eqb_eq in Hf. now subst.
  - rewrite (digits_on_fresh_display (d :: ds) s Hf) by discriminate.
    unfold inputDot. cbn [waitingForSecond display withFreshDisplay].
    now rewrite (includes_digits _ (entryText_digits (d :: ds))).
Qed.

(** Digits, the point, digits, typed on a fresh display: the display is
    the integer part (0 when no digit came before the point), the point,
    and as many of the following digits as fit in twelve characters, the
    point counted. *)
Theorem typed_decimal_makes_the_display
        (ds1 ds2 : list Digit) (s : CalcState) :
  fresh s = true ->
  run (map KDigit ds1 ++ KDot :: map KDigit ds2) s
  = withFreshDisplay
      (wholeText ds1 ++ "."
       ++ labels (firstn (11 - String.length (wholeText ds1)) ds2)) s.
Proof.
  intros Hf.
  change (map KDigit ds1 ++ KDot :: map KDigit ds2)%list
    with (map KDigit ds1 ++ [KDot] ++ map KDigit ds2)%list.
  rewrite List.app_assoc, run_app, (point_after_digits ds1 s Hf).
  set (whole := wholeText ds1).
  assert (Hw : Str.all Str.isDigit whole = true).
  { unfold whole. destruct ds1; [reflexivity | apply entryText_digits]. }
  assert (Hlen : String.length (whole ++ ".") = S (String.length whole)).
  { rewrite length_append. simpl. lia. }
  rewrite digits_extend_display;
    cbn [display waitingForSecond withFreshDisplay].
  - rewrite Hlen, append_assoc.
    replace (12 - S (String.length whole))%nat
      with (11 - String.length whole)%nat by lia.
    reflexivity.
  - reflexivity.
  - intros E. rewrite E in Hlen. discriminate.
  - intros E. rewrite E in Hlen. cbn in Hlen.
    assert (whole <> EmptyString).
    { unfold whole. destruct ds1; [discriminate | apply entryText_nonempty]. }
    destruct whole; [congruence | discriminate].
  - rewrite stripCommas_append.
    now rewrite (stripCommas_id Str.isDigit whole eq_refl Hw).
Qed.

(** From the initial state: 3, point, 1, 4 shows 3.14. *)
Lemma typed_decimal_makes_the_display_witness :
  fresh initial = true
  /\ run (map KDigit [D3] ++ KDot :: map KDigit [D1; D4]) initial
     = withFreshDisplay "3.14" initial.
Proof.
  split; [reflexivity|].
  apply (typed_decimal_makes_the_display [D3] [D1; D4] initial).
  reflexivity.
Defined.

(** ** The formatter *)

Lemma splitDot_prefix (i rest : string) :
  Str.includes "." i = false ->
  Str.splitDot (i ++ String "." rest) = i :: Str.splitDot rest.
Proof.
  induction i as [|a i IH]; simpl; [reflexivity|].
  destruct (Ascii.eqb a "."); [discriminate|].
  intros H. now rewrite (IH H).
Qed.

Lemma splitDot_no_point (d : string) :
  Str.includes "." d = false -> Str.splitDot d = [d].
Proof.
  induction d as [|a d IH]; simpl; [reflexivity|].
  destruct (Ascii.eqb a "."); [discriminate|].
  intros H. now rewrite (IH H).
Qed.

Lemma includes_point_append (i rest : string) :
  Str.includes "." (i ++ String "." rest) = true.
Proof.
  induction i as [|a i IH]; simpl; [reflexivity|].
  now destruct (Ascii.eqb a ".").
Qed.

(** What the formatter does with a display.  With one decimal point, only
    the text before the point is handed to [toLocaleString], and only when
    it reads as a finite number; the point and the text after it are kept
    as they are.  Without a point, a display that does not read as a
    finite number is returned unchanged. *)
Theorem formatter_keeps_the_fraction
        (toLocaleString : JS.number -> string) (i d : string) :
  Str.includes "." i = false -> Str.includes "." d = false ->
  formatForDisplay toLocaleString (i ++ "." ++ d)
  = (if JS.isFinite (JS.toNumber i)
     then toLocaleString (JS.toNumber i) else i) ++ "." ++ d
  /\ (JS.isFinite (JS.toNumber i) = false ->
      formatForDisplay toLocaleString i = i
      /\ formatForDisplay toLocaleString (i ++ "." ++ d) = i ++ "." ++ d).
Proof.
  intros Hi Hd.
  assert (Hinc : Str.includes "." (i ++ "." ++ d) = true)
    by apply includes_point_append.
  assert (E : formatForDisplay toLocaleString (i ++ "." ++ d)
              = (if JS.isFinite (JS.toNumber i)
                 then toLocaleString (JS.toNumber i) else i) ++ "." ++ d).
  { unfold formatForDisplay.
    destruct (String.eqb_spec (i ++ "." ++ d) "∞") as [E|_];
      [rewrite E in Hinc; discriminate|].
    destruct (String.eqb_spec (i ++ "." ++ d) "NaN") as [E|_];
      [rewrite E in Hinc; discriminate|].
    cbn [orb]. rewrite Hinc. cbn [negb].
    change (i ++ "." ++ d) with (i ++ String "." d).
    now rewrite (splitDot_prefix i d Hi), (splitDot_no_point d Hd). }
  split; [exact E|]. intros Hfin. split.
  - unfold formatForDisplay. rewrite Hi, Hfin. cbn [negb].
    now destruct (_ || _).
  - now rewrite E, Hfin.
Qed.

(** The display -.50: the text before the point is a lone minus sign,
    which is not a number, and the display is shown as it is. *)
Lemma formatter_keeps_the_fraction_witness :
  Str.includes "." "-" = false /\ Str.includes "." "50" = false
  /\ JS.isFinite (JS.toNumber "-") = false
  /\ formatForDisplay JS.toString ("-" ++ "." ++ "50") = "-.50".
Proof.
  split; [reflexivity|]. split; [reflexivity|].
  split; [reflexivity|].
  exact (proj2 (proj2 (formatter_keeps_the_fraction JS.toString "-" "50"
                         eq_refl eq_refl) eq_refl)).
Defined.

Lemma split_at_point (s : string) :
  Str.includes "." s = true ->
  exists i d, s = i ++ String "." d
              /\ Str.includes "." i = false
              /\ Str.count "." s = S (Str.count "." d).
Proof.
  induction s as [|a s IH]; simpl; [discriminate|].
  destruct (Ascii.eqb_spec a ".") as [->|Hne].
  - intros _. exists EmptyString, s. repeat split.
  - intros H. destruct (IH H) as (i & d & -> & Hi & Hc).
    exists (String a i), d. simpl.
    destruct (Ascii.eqb_spec a "."); [contradiction|].
    repeat split; auto.
Qed.

Lemma includes_count_zero (c : ascii) (s : string) :
  Str.count c s = 0%nat -> Str.includes c s = false.
Proof.
  induction s as [|a s IH]; simpl; [reflexivity|].
  destruct (Ascii.eqb a c); [discriminate | exact IH].
Qed.

(** What is shown for a reachable display with a decimal point: the
    display splits at its only point, the text before the point is
    formatted when it reads as a finite number, and the point and every
    character after it are shown as the state holds them. *)
Theorem shown_fraction_is_the_typed_one
        (toLocaleString : JS.number -> string) (keys : list Key) :
  Str.includes "." (display (run keys initial)) = true ->
  exists i d,
    display (run keys initial) = i ++ "." ++ d
    /\ formatForDisplay toLocaleString (display (run keys initial))
       = (if JS.isFinite (JS.toNumber i)
          then toLocaleString (JS.toNumber i) else i) ++ "." ++ d.
Proof.
  intros Hinc.
  assert (Hone : (Str.count "." (display (run keys initial)) <= 1)%nat)
    by (apply reachable_points, run_reachable; constructor).
  destruct (split_at_point _ Hinc) as (i & d & E & Hi & Hc).
  exists i, d. rewrite E. split; [reflexivity|].
  assert (Hd : Str.includes "." d = false)
    by (apply includes_count_zero; lia).
  unfold formatForDisplay.
  assert (Hinc' : Str.includes "." (i ++ String "." d) = true)
    by apply includes_point_append.
  destruct (String.eqb_spec (i ++ String "." d) "∞") as [E1|_];
    [rewrite E1 in Hinc'; discriminate|].
  destruct (String.eqb_spec (i ++ String "." d) "NaN") as [E2|_];
    [rewrite E2 in Hinc'; discriminate|].
  cbn [orb]. rewrite Hinc'. cbn [negb].
  now rewrite (splitDot_prefix i d Hi), (splitDot_no_point d Hd).
Qed.

(** The keys 1, 2, point, 5, 0, with [String] standing for the locale's
    formatting: the fraction stays 50. *)
Lemma shown_fraction_is_the_typed_one_witness :
  let keys := [KDigit D1; KDigit D2; KDot; KDigit D5; KDigit D0] in
  Str.includes "." (display (run keys initial)) = true
  /\ exists i d,
       display (run keys initial) = i ++ "." ++ d
       /\ formatForDisplay JS.toString (display (run keys initial))
          = (if JS.isFinite (JS.toNumber i)
             then JS.toString (JS.toNumber i) else i) ++ "." ++ d.
Proof.
  split; [reflexivity|].
  apply (shown_fraction_is_the_typed_one JS.toString
           [KDigit D1; KDigit D2; KDot; KDigit D5; KDigit D0]).
  reflexivity.
Defined.

(** ** A digit after equals *)

(** The result of equals is not a fresh display: after an evaluating
    equals the flag is clear, so the next digit is appended to the text of
    the result while that text is shorter than twelve characters, unless
    the result shows as [0], which the digit replaces. *)
Theorem digit_after_equals_continues
        (d : Digit) (pending : Operator) (a : JS.number) (s : CalcState) :
  operator s = Some pending -> accumulator s = Some a ->
  waitingForSecond s = false ->
  let res := JS.toString (compute a (current s) pending) in
  display (equals s) = res
  /\ (res <> "0" -> (String.length res < 12)%nat ->
      press (KDigit d) (equals s) = withDisplay (res ++ digitLabel d) (equals s))
  /\ (res = "0" ->
      press (KDigit d) (equals s) = withDisplay (digitLabel d) (equals s)).
Proof.
  intros Ho Ha Hw res.
  assert (E : equals s
              = mkState res (Some (compute a (current s) pending))
                        None false (Some pending) (Some (current s)))
    by (unfold equals, res, current; now rewrite Ho, Ha, Hw).
  rewrite E. cbn [display press]. split; [reflexivity|].
  unfold inputDigit. cbn [display waitingForSecond].
  assert (Hs : Str.stripCommas res = res)
    by (apply (stripCommas_id displayChar); [reflexivity|];
        apply toString_chars).
  split.
  - intros Hz Hlen. apply String.eqb_neq in Hz as ->.
    rewrite Hs. now apply Nat.leb_gt in Hlen as ->.
  - now intros ->.
Qed.

(** 5, add, 3, equals and then 2: the display is 82. *)
Lemma digit_after_equals_continues_witness :
  let s := run [KDigit D5; KOp Plus; KDigit D3] initial in
  operator s = Some Plus /\ accumulator s = Some (num 5)
  /\ waitingForSecond s = false
  /\ press (KDigit D2) (equals s) = withDisplay "82" (equals s).
Proof.
  do 3 (split; [reflexivity|]).
  refine (proj1 (proj2 (digit_after_equals_continues D2 Plus (num 5)
                          (run [KDigit D5; KOp Plus; KDigit D3] initial)
                          eq_refl eq_refl eq_refl)) _ _).
  - vm_compute. discriminate.
  - vm_compute. lia.
Defined.
